(** * IODP Zenodo downloader: a shallow embedding of [downloader.py]

    The script pages through the record listing of the IODP community,
    writes a JSON index of the records and mirrors every attached file
    under [data/record_<id>/<sanitized title>/<filename>].

    The embedding follows the script function by function.  Python values
    that come out of [response.json()] are kept as untyped JSON values, so
    that missing keys and ill-shaped bodies raise the exceptions they raise
    in Python.  Effects (console output, HTTP requests, the file system) are
    threaded through a small state-and-exception monad. *)

From Stdlib Require Import ZArith NArith List String Ascii Lia Bool.
From stdpp Require Import base option list gmap pretty.
Import ListNotations.

Local Open Scope nat_scope.
Set Warnings "-register-all".

(** ** Python values *)

(** A [str] is a sequence of Unicode code points. *)
Abbreviation pystr := (list N).

Fixpoint py (x : string) : pystr :=
  match x with
  | EmptyString => []
  | String a r => N_of_ascii a :: py r
  end.

(** Values produced by [response.json()]: [None], booleans, integers,
    strings, lists and dicts.  A dict is its list of items in insertion
    order; lookup takes the first binding of a key.  Non-integer numbers
    are left out. *)
Inductive json :=
| JNull
| JBool (b : bool)
| JInt (n : Z)
| JStr (s : pystr)
| JArr (xs : list json)
| JObj (kvs : list (pystr * json)).

(** The exceptions the script can meet.  All of them derive from
    [Exception]; [OSError] stands for its subclasses raised by [mkdir] and
    [open], [RequestException] for whatever [requests.get] or a broken
    stream raises, [HTTPError] for [raise_for_status]. *)
Inductive exn :=
| KeyError
| TypeError
| AttributeError
| JSONDecodeError
| RequestException
| HTTPError
| OSError.

(** Result of an operation that has no effect but may raise. *)
Inductive res (A : Type) :=
| Ok (a : A)
| Err (e : exn).
Arguments Ok {A} a.
Arguments Err {A} e.

Definition res_bind {A B} (r : res A) (k : A -> res B) : res B :=
  match r with
  | Ok a => k a
  | Err e => Err e
  end.

Declare Scope res_scope.
Delimit Scope res_scope with res.
Notation "x <~ r ;; k" := (res_bind r (fun x => k))
  (at level 100, r at next level, right associativity) : res_scope.

(** What the interpreter and the platform provide and the script relies on:
    the Unicode tables behind [str.isalnum] and whitespace stripping outside
    ASCII, [str()] of a list or a dict, [json.dump(..., indent=2)] followed
    by the text encoding, the size [stat] reports for a directory, and the
    paths the platform accepts: a path (absolute or not, with its parts)
    that it refuses, a name that is too long for one, makes [stat] and
    [mkdir] raise [OSError]. *)
Class runtime := {
  rt_isalnum : N -> bool;
  rt_isspace : N -> bool;
  rt_str_container : json -> pystr;
  rt_json_dump : json -> list Byte.byte;
  rt_dir_size : nat;
  rt_path_ok : bool * list pystr -> bool
}.

Definition dict_get (kvs : list (pystr * json)) (k : pystr) : option json :=
  snd <$> find (fun kv => bool_decide (fst kv = k)) kvs.

(** [d[k]] for a string key [k]. *)
Definition py_index (d : json) (k : pystr) : res json :=
  match d with
  | JObj kvs =>
      match dict_get kvs k with
      | Some v => Ok v
      | None => Err KeyError
      end
  | _ => Err TypeError
  end.

(** [d.get(k, dflt)]: only a dict has a [get] method. *)
Definition py_get (d : json) (k : pystr) (dflt : json) : res json :=
  match d with
  | JObj kvs => Ok (default dflt (dict_get kvs k))
  | _ => Err AttributeError
  end.

(** Truth value, as tested by [if not v]. *)
Definition truthy (v : json) : bool :=
  match v with
  | JNull => false
  | JBool b => b
  | JInt n => negb (n =? 0)%Z
  | JStr s => negb (bool_decide (s = []))
  | JArr xs => match xs with [] => false | _ => true end
  | JObj kvs => match kvs with [] => false | _ => true end
  end.

(** The items a [for] loop or [list.extend] draws from a value: the
    elements of a list, the characters of a string, the keys of a dict. *)
Definition py_iter (v : json) : res (list json) :=
  match v with
  | JArr xs => Ok xs
  | JStr s => Ok (map (fun c => JStr [c]) s)
  | JObj kvs => Ok (map (fun kv => JStr (fst kv)) kvs)
  | _ => Err TypeError
  end.

Definition py_len (v : json) : res nat :=
  match v with
  | JArr xs => Ok (length xs)
  | JStr s => Ok (length s)
  | JObj kvs => Ok (length kvs)
  | _ => Err TypeError
  end.

(** [v[:2]]; a dict cannot be sliced. *)
Definition py_slice2 (v : json) : res json :=
  match v with
  | JArr xs => Ok (JArr (take 2 xs))
  | JStr s => Ok (JStr (take 2 s))
  | _ => Err TypeError
  end.

(** [n >= v] and [n == v] for a Python [int] [n]; a [bool] is an [int]. *)
Definition py_int_ge (n : nat) (v : json) : res bool :=
  match v with
  | JInt t => Ok (t <=? Z.of_nat n)%Z
  | JBool b => Ok ((if b then 1 else 0) <=? Z.of_nat n)%Z
  | _ => Err TypeError
  end.

Definition py_int_eq (n : nat) (v : json) : bool :=
  match v with
  | JInt t => (Z.of_nat n =? t)%Z
  | JBool b => (Z.of_nat n =? (if b then 1 else 0))%Z
  | _ => false
  end.

(** [str(v)], as interpolated by an f-string. *)
Definition py_str `{runtime} (v : json) : pystr :=
  match v with
  | JNull => py "None"
  | JBool true => py "True"
  | JBool false => py "False"
  | JInt n => py (pretty n)
  | JStr s => s
  | _ => rt_str_container v
  end.

(** ** Title sanitizing *)

Definition ascii_isalnum (c : N) : bool :=
  ((48 <=? c) && (c <=? 57) || (65 <=? c) && (c <=? 90)
   || (97 <=? c) && (c <=? 122))%N.

Definition ascii_isspace (c : N) : bool :=
  ((9 <=? c) && (c <=? 13) || (28 <=? c) && (c <=? 32))%N.

Definition char_isalnum `{runtime} (c : N) : bool :=
  if (c <? 128)%N then ascii_isalnum c else rt_isalnum c.

Definition char_isspace `{runtime} (c : N) : bool :=
  if (c <? 128)%N then ascii_isspace c else rt_isspace c.

(** [s.isalnum()]: non-empty and every character alphanumeric. *)
Definition str_isalnum `{runtime} (s : pystr) : bool :=
  match s with
  | [] => false
  | _ => forallb char_isalnum s
  end.

(** [s in (' ', '-', '_')] *)
Definition in_punct (s : pystr) : bool :=
  bool_decide (s = [32%N]) || bool_decide (s = [45%N])
  || bool_decide (s = [95%N]).

(** ["".join(c for c in record_title if c.isalnum() or c in (' ', '-', '_'))]
    over the items of the title; an item without [isalnum] raises. *)
Fixpoint join_kept `{runtime} (items : list json) : res pystr :=
  match items with
  | [] => Ok []
  | JStr c :: rest =>
      if str_isalnum c || in_punct c
      then (r <~ join_kept rest ;; Ok (c ++ r))%res
      else join_kept rest
  | _ :: _ => Err AttributeError
  end.

(** [s.rstrip()] *)
Fixpoint rstrip `{runtime} (s : pystr) : pystr :=
  match s with
  | [] => []
  | c :: r =>
      match rstrip r with
      | [] => if char_isspace c then [] else [c]
      | r' => c :: r'
      end
  end.

Definition safe_title `{runtime} (record_title : json) : res pystr :=
  (items <~ py_iter record_title ;;
   kept <~ join_kept items ;;
   Ok (rstrip kept))%res.

(** ** Paths and the file system *)

(** A [pathlib] path: whether it is absolute, and its components.  The
    empty relative path is the working directory.  [..] components and
    symbolic links are not resolved: a path is identified by its parts. *)
Abbreviation path := (bool * list pystr)%type.

(** Splitting on ['/']: the pieces between slashes, empty ones included. *)
Fixpoint split_slash (s : pystr) : list pystr :=
  match s with
  | [] => [[]]
  | c :: r =>
      if (c =? 47)%N then [] :: split_slash r
      else match split_slash r with
           | [] => [[c]]
           | piece :: pieces => (c :: piece) :: pieces
           end
  end.

(** The components [pathlib] keeps: empty pieces and [.] are dropped. *)
Definition path_parts (s : pystr) : list pystr :=
  filter (fun piece => piece <> [] /\ piece <> [46%N]) (split_slash s).

(** [p / s] for a string [s]: an absolute [s] replaces [p]. *)
Definition path_join (p : path) (s : pystr) : path :=
  match s with
  | 47%N :: _ => (true, path_parts s)
  | _ => (fst p, snd p ++ path_parts s)
  end.

(** [p / v] for a value [v]: only a string can be joined. *)
Definition path_join_value (p : path) (v : json) : res path :=
  match v with
  | JStr s => Ok (path_join p s)
  | _ => Err TypeError
  end.

Definition path_parent (p : path) : path := (fst p, removelast (snd p)).

Inductive node :=
| NFile (content : list Byte.byte)
| NDir.

(** The working directory and the root always exist. *)
Definition fs_lookup (fs : gmap path node) (p : path) : option node :=
  match snd p with
  | [] => Some NDir
  | _ => fs !! p
  end.

(** [p.stat().st_size] *)
Definition st_size `{runtime} (n : node) : nat :=
  match n with
  | NFile content => length content
  | NDir => rt_dir_size
  end.

(** ** The remote service *)

(** Answer to a listing request: [requests.get] raises, or returns a
    response with a status code, a text and, if the text is valid JSON, the
    value [response.json()] returns. *)
Inductive listing_reply :=
| ListingRaises
| ListingResponse (status_code : Z) (text : pystr) (body : option json).

(** Answer to a file request: [requests.get] raises, or returns a response
    with a status code and a stream of chunks that may break off after the
    last one. *)
Inductive file_reply :=
| FileRaises
| FileResponse (status_code : Z) (chunks : list (list Byte.byte))
    (breaks : bool).

(** The service as the script sees it with its community identifier and
    access token: a listing page for a page number and a page size, a file
    for the value found under [links.self]. *)
Class remote := {
  listing : nat -> nat -> listing_reply;
  download : json -> file_reply
}.

Inductive request :=
| GetRecords (page size : nat)
| GetFile (url : json).

(** ** Console output *)

Inductive line :=
| OutKeyNotSet
| OutKeyHint
| OutFetching (debug : bool)
| OutErrorFetching (status_code : Z)
| OutResponse (text : pystr)
| OutFetchedPage (page so_far : nat)
| OutTotalFound (n : nat)
| OutSkipping (filename : json)
| OutDownloading (filename file_size : json)
| OutDownloaded (filename : json)
| OutErrorDownloading (filename : json) (e : exn)
| OutProcessing (record_id title : json) (debug : bool)
| OutFilesToDownload (n : nat)
| OutNoFiles
| OutTally (success_count n : nat)
| OutMetadataSaved
| OutBanner
| OutDebugEnabled
| OutNoRecords
| OutStarting (n : nat) (debug : bool)
| OutIndex (i n : nat)
| OutComplete.

(** ** The monad of the script *)

Record world := World {
  w_fs : gmap path node;
  w_requests : list request;
  w_console : list line
}.

(** How a computation ends: with a value, with a Python exception, with
    [sys.exit(code)], or not within the steps allotted to the page loop. *)
Inductive outcome (A : Type) :=
| Val (a : A)
| Exc (e : exn)
| Exit (code : Z)
| Diverged.
Arguments Val {A} a.
Arguments Exc {A} e.
Arguments Exit {A} code.
Arguments Diverged {A}.

Definition M (A : Type) : Type := world -> outcome A * world.

Definition ret {A} (a : A) : M A := fun w => (Val a, w).

Definition bind {A B} (m : M A) (k : A -> M B) : M B :=
  fun w =>
    match m w with
    | (Val a, w') => k a w'
    | (Exc e, w') => (Exc e, w')
    | (Exit c, w') => (Exit c, w')
    | (Diverged, w') => (Diverged, w')
    end.

Declare Scope py_scope.
Delimit Scope py_scope with M.
Notation "x <- m ;; k" := (bind m (fun x => k))
  (at level 100, m at next level, right associativity) : py_scope.
Notation "m ;; k" := (bind m (fun _ => k))
  (at level 100, right associativity) : py_scope.
Local Open Scope py_scope.

Definition raise {A} (e : exn) : M A := fun w => (Exc e, w).

Definition lift {A} (r : res A) : M A :=
  match r with
  | Ok a => ret a
  | Err e => raise e
  end.

Definition sys_exit {A} (code : Z) : M A := fun w => (Exit code, w).

Definition diverge {A} : M A := fun w => (Diverged, w).

(** [try: body  except Exception as e: handler e].  [SystemExit] is not an
    [Exception]. *)
Definition try_except {A} (body : M A) (handler : exn -> M A) : M A :=
  fun w =>
    match body w with
    | (Exc e, w') => handler e w'
    | r => r
    end.

Definition print (l : line) : M unit :=
  fun w => (Val tt, World (w_fs w) (w_requests w) (w_console w ++ [l])).

Definition sent (r : request) : M unit :=
  fun w => (Val tt, World (w_fs w) (w_requests w ++ [r]) (w_console w)).

Definition set_fs (fs : gmap path node) : M unit :=
  fun w => (Val tt, World fs (w_requests w) (w_console w)).

Definition get_fs : M (gmap path node) := fun w => (Val (w_fs w), w).

(** [p.mkdir(exist_ok=True)]: nothing to do for a directory; an error if
    [p] is a regular file, if its parent is not a directory, or if the
    platform refuses the new path. *)
Definition mkdir_exist_ok `{runtime} (p : path) : M unit :=
  fs <- get_fs ;;
  match fs_lookup fs p with
  | Some NDir => ret tt
  | Some (NFile _) => raise OSError
  | None =>
      match fs_lookup fs (path_parent p) with
      | Some NDir =>
          if rt_path_ok p then set_fs (<[p := NDir]> fs) else raise OSError
      | _ => raise OSError
      end
  end.

(** [open(p, 'wb')] or [open(p, 'w')]: the file is created or truncated. *)
Definition open_w (p : path) : M unit :=
  fs <- get_fs ;;
  match fs_lookup fs p with
  | Some NDir => raise OSError
  | Some (NFile _) => set_fs (<[p := NFile []]> fs)
  | None =>
      match fs_lookup fs (path_parent p) with
      | Some NDir => set_fs (<[p := NFile []]> fs)
      | _ => raise OSError
      end
  end.

(** [f.write(data)] on the file opened at [p]. *)
Definition write (p : path) (data : list Byte.byte) : M unit :=
  fs <- get_fs ;;
  match fs !! p with
  | Some (NFile content) => set_fs (<[p := NFile (content ++ data)]> fs)
  | _ => raise OSError
  end.

(** ** The script *)

Section Script.
Context `{RT : runtime} `{NET : remote}.

(** [data_dir = Path('data')] *)
Definition data_dir : path := (false, [py "data"]).

(** [requests.get(f"{BASE_URL}/records", params=params)] *)
Definition get_records_page (page size : nat)
  : M (Z * pystr * option json) :=
  sent (GetRecords page size) ;;
  match listing page size with
  | ListingRaises => raise RequestException
  | ListingResponse status_code text body => ret (status_code, text, body)
  end.

(** [response.json()] *)
Definition response_json (body : option json) : M json :=
  match body with
  | Some data => ret data
  | None => raise JSONDecodeError
  end.

(** The statements after the [while] loop of [get_iodp_records], reached by
    each of its [break]s. *)
Definition after_loop (all_records : list json) : M (list json) :=
  print (OutTotalFound (length all_records)) ;;
  ret all_records.

(** The [while True] loop of [get_iodp_records], over its variables
    [page] and [all_records]; [fuel] bounds the number of iterations.
    [time.sleep(0.1)] has no counterpart. *)
Fixpoint records_loop (fuel : nat) (debug : bool) (size page : nat)
    (all_records : list json) : M (list json) :=
  match fuel with
  | O => diverge
  | S fuel' =>
      response <- get_records_page page size ;;
      let '(status_code, text, body) := response in
      if negb (status_code =? 200)%Z then
        print (OutErrorFetching status_code) ;;
        print (OutResponse text) ;;
        after_loop all_records
      else
        data <- response_json body ;;
        hits <- lift (py_get data (py "hits") (JObj [])) ;;
        records <- lift (py_get hits (py "hits") (JArr [])) ;;
        if negb (truthy records) then after_loop all_records
        else
          items <- lift (py_iter records) ;;
          let all_records := all_records ++ items in
          print (OutFetchedPage page (length all_records)) ;;
          if debug && (2 <=? length all_records) then
            after_loop (take 2 all_records)
          else
            hits' <- lift (py_get data (py "hits") (JObj [])) ;;
            total <- lift (py_get hits' (py "total") (JInt 0)) ;;
            enough <- lift (py_int_ge (length all_records) total) ;;
            if (enough : bool) then after_loop all_records
            else records_loop fuel' debug size (S page) all_records
  end.

Definition get_iodp_records (fuel : nat) (debug : bool) : M (list json) :=
  print (OutFetching debug) ;;
  let size := if debug then 2 else 50 in
  records_loop fuel debug size 1 [].

(** The body of the [with open(file_path, 'wb')] block: every non-empty
    chunk is written; the stream may raise after its last chunk. *)
Fixpoint write_chunks (file_path : path) (chunks : list (list Byte.byte))
    (breaks : bool) : M unit :=
  match chunks with
  | [] => if breaks then raise RequestException else ret tt
  | chunk :: rest =>
      match chunk with
      | [] => ret tt
      | _ => write file_path chunk
      end ;;
      write_chunks file_path rest breaks
  end.

(** [requests.get(download_url, ..., stream=True)] followed by
    [response.raise_for_status()]. *)
Definition get_file (download_url : json)
  : M (list (list Byte.byte) * bool) :=
  sent (GetFile download_url) ;;
  match download download_url with
  | FileRaises => raise RequestException
  | FileResponse status_code chunks breaks =>
      if (400 <=? status_code)%Z && (status_code <? 600)%Z
      then raise HTTPError
      else ret (chunks, breaks)
  end.

(** [file_path.exists()] and [file_path.stat()] raise the [OSError] of a
    path the platform refuses; line 108 is outside the [try]. *)
Definition examine (file_path : path) : res unit :=
  if rt_path_ok file_path then Ok tt else Err OSError.

(** The value of [file_path.exists() and file_path.stat().st_size ==
    file_size] for a path the platform lets the script examine. *)
Definition already_there (fs : gmap path node) (file_path : path)
    (file_size : json) : bool :=
  match fs_lookup fs file_path with
  | Some n => py_int_eq (st_size n) file_size
  | None => false
  end.

Definition download_file (file_info record_id record_title : json)
  : M bool :=
  filename <- lift (py_index file_info (py "key")) ;;
  links <- lift (py_index file_info (py "links")) ;;
  download_url <- lift (py_index links (py "self")) ;;
  file_size <- lift (py_get file_info (py "size") (JInt 0)) ;;
  let record_dir := path_join data_dir (py "record_" ++ py_str record_id) in
  mkdir_exist_ok record_dir ;;
  safe <- lift (safe_title record_title) ;;
  let title_dir := path_join record_dir (take 100 safe) in
  mkdir_exist_ok title_dir ;;
  file_path <- lift (path_join_value title_dir filename) ;;
  lift (examine file_path) ;;
  fs <- get_fs ;;
  if already_there fs file_path file_size then
    print (OutSkipping filename) ;;
    ret true
  else
    print (OutDownloading filename file_size) ;;
    try_except
      (response <- get_file download_url ;;
       open_w file_path ;;
       write_chunks file_path (fst response) (snd response) ;;
       print (OutDownloaded filename) ;;
       ret true)
      (fun e =>
         print (OutErrorDownloading filename e) ;;
         ret false).

(** The [for file_info in files] loop of [download_record_data]. *)
Fixpoint download_files (files : list json) (record_id title : json)
    (success_count : nat) : M nat :=
  match files with
  | [] => ret success_count
  | file_info :: rest =>
      ok <- download_file file_info record_id title ;;
      download_files rest record_id title
        (if (ok : bool) then S success_count else success_count)
  end.

Definition download_record_data (record : json) (debug : bool) : M unit :=
  record_id <- lift (py_index record (py "id")) ;;
  metadata <- lift (py_index record (py "metadata")) ;;
  title <- lift (py_get metadata (py "title") (JStr (py "Unknown Title"))) ;;
  files <- lift (py_get record (py "files") (JArr [])) ;;
  limit <- (if debug then
              n <- lift (py_len files) ;; ret (2 <? n)
            else ret false) ;;
  files <- (if (limit : bool) then
              files' <- lift (py_slice2 files) ;;
              print (OutProcessing record_id title true) ;;
              ret files'
            else
              print (OutProcessing record_id title false) ;;
              ret files) ;;
  n <- lift (py_len files) ;;
  print (OutFilesToDownload n) ;;
  if negb (truthy files) then print OutNoFiles
  else
    items <- lift (py_iter files) ;;
    success_count <- download_files items record_id title 0 ;;
    print (OutTally success_count n).

(** [{'key': f['key'], 'size': f.get('size', 0)}] *)
Definition file_entry (f : json) : res json :=
  (key <~ py_index f (py "key") ;;
   size <~ py_get f (py "size") (JInt 0) ;;
   Ok (JObj [(py "key", key); (py "size", size)]))%res.

Fixpoint res_map {A B} (f : A -> res B) (xs : list A) : res (list B) :=
  match xs with
  | [] => Ok []
  | x :: rest =>
      (y <~ f x ;;
       ys <~ res_map f rest ;;
       Ok (y :: ys))%res
  end.

(** The dict [meta] built for one record in [save_metadata]. *)
Definition record_meta (record : json) : res json :=
  (id <~ py_index record (py "id") ;;
   metadata <~ py_index record (py "metadata") ;;
   title <~ py_get metadata (py "title") JNull ;;
   description <~ py_get metadata (py "description") JNull ;;
   creators <~ py_get metadata (py "creators") (JArr []) ;;
   publication_date <~ py_get metadata (py "publication_date") JNull ;;
   doi <~ py_get record (py "doi") JNull ;;
   files <~ py_get record (py "files") (JArr []) ;;
   items <~ py_iter files ;;
   entries <~ res_map file_entry items ;;
   Ok (JObj [(py "id", id);
             (py "title", title);
             (py "description", description);
             (py "creators", creators);
             (py "publication_date", publication_date);
             (py "doi", doi);
             (py "files", JArr entries)]))%res.

Definition metadata_file : path := path_join data_dir (py "iodp_metadata.json").

Definition save_metadata (records : list json) : M unit :=
  metadata <- lift (res_map record_meta records) ;;
  open_w metadata_file ;;
  write metadata_file (rt_json_dump (JArr metadata)) ;;
  print OutMetadataSaved.

(** The [for i, record in enumerate(records, 1)] loop of [main]. *)
Fixpoint download_all (records : list json) (i n : nat) (debug : bool)
  : M unit :=
  match records with
  | [] => ret tt
  | record :: rest =>
      print (OutIndex i n) ;;
      download_record_data record debug ;;
      download_all rest (S i) n debug
  end.

(** [main], with [args.debug] and the module-level [DEBUG] as arguments. *)
Definition main (fuel : nat) (args_debug DEBUG : bool) : M unit :=
  let debug_mode := args_debug || DEBUG in
  print OutBanner ;;
  (if debug_mode then print OutDebugEnabled else ret tt) ;;
  records <- get_iodp_records fuel debug_mode ;;
  match records with
  | [] => print OutNoRecords
  | _ =>
      save_metadata records ;;
      print (OutStarting (length records) debug_mode) ;;
      download_all records 1 (length records) debug_mode ;;
      print OutComplete
  end.

(** The module-level statements: the data directory is created, then the
    API key is required.  [os.getenv] gives [None] or a string; the empty
    string is as good as none. *)
Definition module_init (ZENODO_API_KEY : option pystr) : M unit :=
  mkdir_exist_ok data_dir ;;
  match ZENODO_API_KEY with
  | None | Some [] =>
      print OutKeyNotSet ;;
      print OutKeyHint ;;
      sys_exit 1
  | Some _ => ret tt
  end.

(** Running the script: the module body, then [main()]. *)
Definition script (fuel : nat) (ZENODO_API_KEY : option pystr)
    (args_debug DEBUG : bool) : M unit :=
  module_init ZENODO_API_KEY ;;
  main fuel args_debug DEBUG.

End Script.

(** The exit status of the process, when it ends: 0 after a normal return,
    1 after an uncaught exception, the given code after [sys.exit]. *)
Definition exit_status {A} (o : outcome A) : option Z :=
  match o with
  | Val _ => Some 0%Z
  | Exc _ => Some 1%Z
  | Exit code => Some code
  | Diverged => None
  end.

(** ** The debug switch *)

(** [str.lower] is left to the interpreter for a string that is not plain
    ASCII. *)
Class casing := { rt_lower : pystr -> pystr }.

Definition ascii_lower (c : N) : N :=
  if ((65 <=? c) && (c <=? 90))%N then (c + 32)%N else c.

(** [s.lower()] *)
Definition str_lower `{casing} (s : pystr) : pystr :=
  if forallb (fun c => (c <? 128)%N) s then map ascii_lower s
  else rt_lower s.

(** [os.getenv('DEBUG', 'false').lower() in ('true', '1', 'yes')], for the
    value of the variable if it is set. *)
Definition env_debug `{casing} (DEBUG : option pystr) : bool :=
  let v := str_lower (default (py "false") DEBUG) in
  bool_decide (v = py "true") || bool_decide (v = py "1")
  || bool_decide (v = py "yes").

(** [debug_mode = args.debug or DEBUG] *)
Definition debug_mode `{casing} (args_debug : bool) (DEBUG : option pystr)
  : bool :=
  args_debug || env_debug DEBUG.

(** * Specification-side definitions *)

(** ** Directory names *)

(** The characters a directory name may contain. *)
Definition allowed_char `{runtime} (c : N) : bool :=
  char_isalnum c || (c =? 32)%N || (c =? 45)%N || (c =? 95)%N.

(** The directory name as the specification words it: every other
    character stripped, the result truncated to 100 characters. *)
Definition spec_dir_name `{runtime} (title : pystr) : pystr :=
  take 100 (filter (fun c => allowed_char c = true) title).

(** ** A well-behaved listing *)

(** The records of page [page] of a listing [L] cut in pages of [size]. *)
Definition page_of (L : list json) (page size : nat) : list json :=
  take size (drop ((page - 1) * size) L).

Definition listing_body (records : list json) (total : Z) : json :=
  JObj [(py "hits", JObj [(py "hits", JArr records);
                          (py "total", JInt total)])].

(** A service that lists [L] in a fixed order and reports its length as
    the total. *)
Definition serve (L : list json) (files : json -> file_reply) : remote := {|
  listing := fun page size =>
    ListingResponse 200 [] (Some (listing_body (page_of L page size)
                                    (Z.of_nat (length L))));
  download := files
|}.

Definition pages (size first count : nat) : list request :=
  map (fun page => GetRecords page size) (seq first count).

(** Number of pages the enumerator fetches from such a service: one for an
    empty listing, otherwise the least [k] with [length L <= k * size]. *)
Definition pages_needed (n size : nat) : nat :=
  match n with
  | O => 1
  | S m => S (m / size)
  end.

(** ** Progress of the page loop *)

(** The page [page] is answered with status 200 and a body from which the
    loop, holding [acc], draws [items] and then goes on to the next page. *)
Definition moves_on `{remote} (debug : bool) (size page : nat)
    (acc items : list json) : Prop :=
  exists text data hits records total,
    listing page size = ListingResponse 200 text (Some data)
    /\ py_get data (py "hits") (JObj []) = Ok hits
    /\ py_get hits (py "hits") (JArr []) = Ok records
    /\ truthy records = true
    /\ py_iter records = Ok items
    /\ debug && (2 <=? length (acc ++ items)) = false
    /\ py_get hits (py "total") (JInt 0) = Ok total
    /\ py_int_ge (length (acc ++ items)) total = Ok false.

(** [reaches debug size page acc]: the loop gets to request [page] having
    accumulated [acc] from the pages before it. *)
Inductive reaches `{remote} (debug : bool) (size : nat)
  : nat -> list json -> Prop :=
| reaches_first : reaches debug size 1 []
| reaches_next page acc items :
    reaches debug size page acc ->
    moves_on debug size page acc items ->
    reaches debug size (S page) (acc ++ items).

(** ** What [download_file] does, in closed form *)

(** The values [download_file] computes before it touches the network; the
    last step is the look at the target path, which the platform may
    refuse. *)
Record target := Target {
  t_filename : json;
  t_url : json;
  t_size : json;
  t_record_dir : path;
  t_title_dir : path;
  t_path : path
}.

Definition file_target `{runtime} (file_info record_id record_title : json)
  : res target :=
  (filename <~ py_index file_info (py "key") ;;
   links <~ py_index file_info (py "links") ;;
   download_url <~ py_index links (py "self") ;;
   file_size <~ py_get file_info (py "size") (JInt 0) ;;
   let record_dir := path_join data_dir (py "record_" ++ py_str record_id) in
   safe <~ safe_title record_title ;;
   let title_dir := path_join record_dir (take 100 safe) in
   file_path <~ path_join_value title_dir filename ;;
   _ <~ examine file_path ;;
   Ok (Target filename download_url file_size record_dir title_dir
         file_path))%res.

(** The two [mkdir] calls of [download_file]. *)
Definition make_dirs `{runtime} (tg : target) : M unit :=
  (mkdir_exist_ok (t_record_dir tg) ;;
   mkdir_exist_ok (t_title_dir tg))%M.

(** The file system after [p.mkdir(exist_ok=True)], if it succeeds. *)
Definition made_dir `{runtime} (fs : gmap path node) (p : path)
  : option (gmap path node) :=
  match fs_lookup fs p with
  | Some NDir => Some fs
  | Some (NFile _) => None
  | None =>
      match fs_lookup fs (path_parent p) with
      | Some NDir => if rt_path_ok p then Some (<[p := NDir]> fs) else None
      | _ => None
      end
  end.

(** Whether [open(p, 'wb')] succeeds. *)
Definition can_open (fs : gmap path node) (p : path) : bool :=
  match fs_lookup fs p with
  | Some NDir => false
  | Some (NFile _) => true
  | None =>
      match fs_lookup fs (path_parent p) with
      | Some NDir => true
      | _ => false
      end
  end.

(** [raise_for_status] raises on 4xx and 5xx. *)
Definition http_error (status_code : Z) : bool :=
  (400 <=? status_code)%Z && (status_code <? 600)%Z.

Definition with_fs (fs : gmap path node) (w : world) : world :=
  World fs (w_requests w) (w_console w).

Definition add_request (r : request) (w : world) : world :=
  World (w_fs w) (w_requests w ++ [r]) (w_console w).

Definition add_lines (ls : list line) (w : world) : world :=
  World (w_fs w) (w_requests w) (w_console w ++ ls).

(** Result and final world of [download_file] once its directories are in
    place in [w]. *)
Definition fetch_result `{runtime} `{remote} (tg : target) (w : world)
  : bool * world :=
  let name := t_filename tg in
  if already_there (w_fs w) (t_path tg) (t_size tg) then
    (true, add_lines [OutSkipping name] w)
  else
    let w2 := add_request (GetFile (t_url tg))
                (add_lines [OutDownloading name (t_size tg)] w) in
    match download (t_url tg) with
    | FileRaises =>
        (false, add_lines [OutErrorDownloading name RequestException] w2)
    | FileResponse status_code chunks breaks =>
        if http_error status_code then
          (false, add_lines [OutErrorDownloading name HTTPError] w2)
        else if can_open (w_fs w2) (t_path tg) then
          let w3 := with_fs (<[t_path tg := NFile (concat chunks)]> (w_fs w2))
                      w2 in
          if breaks then
            (false,
             add_lines [OutErrorDownloading name RequestException] w3)
          else (true, add_lines [OutDownloaded name] w3)
        else (false, add_lines [OutErrorDownloading name OSError] w2)
    end.

(** The file a console line reports as being handled, if any. *)
Definition handled_file (l : line) : option json :=
  match l with
  | OutSkipping filename => Some filename
  | OutDownloading filename _ => Some filename
  | _ => None
  end.

Definition handled_files (ls : list line) : list json := omap handled_file ls.

(** How an iteration of the page loop that holds [acc] may end the loop:
    with an exception, with [acc] itself, with [acc] extended by the items
    of the page, or (in debug mode) with the first two records. *)
Definition stops_with (debug : bool) (acc : list json)
    (o : outcome (list json)) : Prop :=
  match o with
  | Val rs =>
      rs = acc
      \/ exists items,
           items <> []
           /\ (debug = true /\ rs = take 2 (acc ++ items)
               \/ debug && (2 <=? length rs) = false /\ rs = acc ++ items)
  | Exc _ => True
  | Exit _ => False
  | Diverged => False
  end.

(** A run of the mirror on [record] from [w] that ends in [r] has handled
    at most two files, namely the first of the record's files, and has sent
    at most one request for each. *)
Definition handles_first_two (record : json) (w : world)
    (r : outcome unit * world) : Prop :=
  exists new,
    w_console (snd r) = w_console w ++ new
    /\ length (handled_files new) <= 2
    /\ length (w_requests (snd r))
       <= length (w_requests w) + length (handled_files new)
    /\ forall files,
         py_get record (py "files") (JArr []) = Ok (JArr files) ->
         exists done,
           done `prefix_of` take 2 files
           /\ Forall2
                (fun file_info name => py_index file_info (py "key") = Ok name)
                done (handled_files new).

(** ** Mirroring a record twice *)

(** What [download_record_data] computes before its loop: the id, the
    title, whether the file list was cut, the count it prints and the items
    it iterates over ([None] when there is nothing to download). *)
Record plan := Plan {
  pl_id : json;
  pl_title : json;
  pl_limit : bool;
  pl_count : nat;
  pl_items : option (list json)
}.

Definition record_plan (record : json) (debug : bool) : res plan :=
  (record_id <~ py_index record (py "id") ;;
   metadata <~ py_index record (py "metadata") ;;
   title <~ py_get metadata (py "title") (JStr (py "Unknown Title")) ;;
   files <~ py_get record (py "files") (JArr []) ;;
   limit <~ (if debug then (n <~ py_len files ;; Ok (2 <? n)) else Ok false) ;;
   files' <~ (if (limit : bool) then py_slice2 files else Ok files) ;;
   n <~ py_len files' ;;
   if truthy files'
   then (items <~ py_iter files' ;;
         Ok (Plan record_id title limit n (Some items)))
   else Ok (Plan record_id title limit n None))%res.





(** ** The metadata index *)







(** ** Examples *)

(** A runtime for ASCII text: no letter, digit or blank beyond ASCII, a
    directory of 4096 bytes, and a compact rendering of JSON documents. *)
Definition byte_of_char (c : N) : Byte.byte :=
  match Byte.of_N c with
  | Some b => b
  | None => Byte.x3f
  end.

Fixpoint compact_dump (v : json) : list Byte.byte :=
  match v with
  | JNull => [Byte.x6e]
  | JBool b => [if b then Byte.x74 else Byte.x66]
  | JInt n => Byte.x23 :: map (fun a => byte_of_ascii a)
                            (list_ascii_of_string (pretty n))
  | JStr s => Byte.x22 :: map byte_of_char s
              ++ [Byte.x22]
  | JArr xs => Byte.x5b :: concat (map compact_dump xs) ++ [Byte.x5d]
  | JObj kvs =>
      Byte.x7b
      :: concat (map (fun kv =>
                        match kv with
                        | (k, x) =>
                            map byte_of_char k
                            ++ Byte.x3a :: compact_dump x
                        end) kvs)
      ++ [Byte.x7d]
  end.

Definition ascii_runtime : runtime := {|
  rt_isalnum := fun _ => false;
  rt_isspace := fun _ => false;
  rt_str_container := fun _ => py "[...]";
  rt_json_dump := compact_dump;
  rt_dir_size := 4096;
  rt_path_ok := fun p => forallb (fun name => length name <=? 255) (snd p)
|}.

Definition empty_world : world := World ∅ [] [].

Definition no_files : json -> file_reply := fun _ => FileRaises.

Definition three_records : list json := [JInt 1; JInt 2; JInt 3].



(** One record with one three-byte file, served in chunks. *)
Definition core_url : json := JStr (py "https://zenodo.org/api/files/core.csv").

Definition core_file : json :=
  JObj [(py "key", JStr (py "core.csv"));
        (py "size", JInt 3);
        (py "links", JObj [(py "self", core_url)])].




Definition leg_title : json := JStr (py "Leg 1: cores_A ").

Definition leg_record (files : list json) : json :=
  JObj [(py "id", JInt 7);
        (py "metadata", JObj [(py "title", leg_title)]);
        (py "doi", JStr (py "10.5281/zenodo.7"));
        (py "files", JArr files)].

Definition core_bytes : list Byte.byte := [Byte.x61; Byte.x62; Byte.x63].

Definition core_reply : json -> file_reply :=
  fun _ => FileResponse 200 [[Byte.x61; Byte.x62]; []; [Byte.x63]] false.

Definition core_remote : remote := serve [leg_record [core_file]] core_reply.

Definition leg_record_dir : path := (false, [py "data"; py "record_7"]).

Definition leg_title_dir : path :=
  (false, [py "data"; py "record_7"; py "Leg 1 cores_A"]).

Definition core_path : path :=
  (false, [py "data"; py "record_7"; py "Leg 1 cores_A"; py "core.csv"]).

Definition core_target (size : json) : target :=
  Target (JStr (py "core.csv")) core_url size leg_record_dir leg_title_dir
    core_path.

(** A mirror that holds [content] at the path of the file. *)
Definition mirror_with (content : list Byte.byte) : world :=
  World (<[core_path := NFile content]>
           (<[leg_title_dir := NDir]>
              (<[leg_record_dir := NDir]> (<[data_dir := NDir]> ∅))))
    [] [].

(** A mirror with its data directory and nothing else. *)
Definition fresh_world : world := World (<[data_dir := NDir]> ∅) [] [].



(** A service that cannot be reached, and one that lists nothing. *)
Definition unreachable : remote := {|
  listing := fun _ _ => ListingRaises;
  download := no_files
|}.

Definition empty_community : remote := serve [] no_files.

Definition some_key : option pystr := Some (py "token").

(** ** Further properties of the enumerator *)


(** A service whose every page holds one record and reports a total one
    above what the enumerator then holds. *)
Definition endless : remote := {|
  listing := fun page size =>
    ListingResponse 200 []
      (Some (listing_body [JInt (Z.of_nat page)] (Z.of_nat page + 1)));
  download := no_files
|}.

(** ** What the script leaves on disk *)

Definition same_kind (n n' : node) : Prop :=
  match n, n' with
  | NDir, NDir => True
  | NFile _, NFile _ => True
  | _, _ => False
  end.

(** Every entry of [fs] is still there in [fs'], a directory as a
    directory and a regular file as a regular file. *)
Definition keeps (fs fs' : gmap path node) : Prop :=
  forall q n,
    fs_lookup fs q = Some n ->
    exists n', fs_lookup fs' q = Some n' /\ same_kind n n'.

(** A computation that, however it ends, keeps every entry. *)
Definition preserving {A} (m : M A) : Prop :=
  forall w, keeps (w_fs w) (w_fs (snd (m w))).

(** A service that sends two bytes of the three-byte file and breaks off. *)
Definition breaking : remote := {|
  listing := fun _ _ => ListingRaises;
  download := fun _ => FileResponse 200 [[Byte.x61]; [Byte.x62]] true
|}.

(** ** Names and switches *)

(** A character of a file name that can name an entry: not a slash, not
    NUL, not a surrogate (which the file system encoding refuses). *)
Definition name_char (c : N) : Prop :=
  c <> 47%N /\ c <> 0%N /\ (c < 55296 \/ 57343 < c)%N.

(** A file name that is a single path component naming an entry of its
    directory: not empty, not [.], not [..], and made of such characters. *)
Definition plain_name (s : pystr) : Prop :=
  s <> [] /\ s <> [46%N] /\ s <> [46%N; 46%N] /\ Forall name_char s.

Definition ascii_upper (c : N) : N :=
  if ((97 <=? c) && (c <=? 122))%N then (c - 32)%N else c.

Definition notes_file : json :=
  JObj [(py "key", JStr (py "notes.txt"));
        (py "size", JInt 3);
        (py "links", JObj [(py "self", core_url)])].

Definition notes_target : target :=
  Target (JStr (py "notes.txt")) core_url (JInt 3) leg_record_dir
    leg_title_dir
    (false, [py "data"; py "record_7"; py "Leg 1 cores_A"; py "notes.txt"]).

(** An interpreter whose [lower] leaves non-ASCII strings alone. *)
Definition ascii_casing : casing := {| rt_lower := fun s => s |}.

(** ** What the script sends *)

(** From [w] to [w'] nothing was sent but requests for files. *)
Definition sent_files (w w' : world) : Prop :=
  exists urls, w_requests w' = w_requests w ++ map GetFile urls.

(** A computation that, however it ends, sends only requests for files. *)
Definition fetching {A} (m : M A) : Prop :=
  forall w, sent_files w (snd (m w)).

(** * Properties *)

(** ** Sanitized directory names *)

Section Sanitize.
Context `{RT : runtime}.

Lemma join_kept_chars (t : pystr) :
  join_kept (map (fun c => JStr [c]) t)
  = Ok (filter (fun c => allowed_char c = true) t).
Proof.
  induction t as [ | c t IH]; [reflexivity | ].
  cbn [map join_kept]. rewrite IH.
  assert (Hk : str_isalnum [c] || in_punct [c] = allowed_char c).
  { unfold str_isalnum, in_punct, allowed_char. cbn [forallb].
    rewrite andb_true_r, <- !orb_assoc. f_equal.
    repeat match goal with
    | |- context [bool_decide ([c] = [?k])] =>
        replace (bool_decide ([c] = [k])) with (c =? k)%N
          by (destruct (N.eqb_spec c k) as [->|Hne];
              [ symmetry; apply bool_decide_eq_true; reflexivity
              | symmetry; apply bool_decide_eq_false; congruence ])
    end.
    reflexivity. }
  rewrite Hk. rewrite filter_cons.
  destruct (allowed_char c) eqn:Hc.
  - rewrite decide_True by reflexivity. reflexivity.
  - rewrite decide_False by discriminate. reflexivity.
Qed.

Lemma rstrip_Forall (P : N -> Prop) (s : pystr) :
  Forall P s -> Forall P (rstrip s).
Proof.
  induction 1 as [ | c r Hc Hr IH]; [constructor | ].
  cbn [rstrip]. destruct (rstrip r) as [ | c' r'].
  - destruct (char_isspace c); repeat constructor; assumption.
  - constructor; assumption.
Qed.

Lemma safe_title_str (t : pystr) :
  safe_title (JStr t)
  = Ok (rstrip (filter (fun c => allowed_char c = true) t)).
Proof.
  unfold safe_title. cbn [py_iter res_bind].
  rewrite join_kept_chars. reflexivity.
Qed.

Lemma allowed_char_plain (c : N) :
  allowed_char c = true -> c <> 46%N /\ c <> 47%N.
Proof. intros Hc. split; intros ->; vm_compute in Hc; discriminate. Qed.

End Sanitize.

(** C8, as the specification words it, fails on a title that ends in a
    space: the script drops the trailing blank, the wording keeps it. *)
Lemma dir_name_trailing_space :
  @safe_title ascii_runtime (JStr (py "a ")) = Ok (py "a")
  /\ @spec_dir_name ascii_runtime (py "a ") = py "a ".
Proof. split; reflexivity. Qed.

(** ** Running the monad *)

Lemma bind_val {A B} (m : M A) (k : A -> M B) w a w' :
  m w = (Val a, w') -> bind m k w = k a w'.
Proof. unfold bind. intros ->. reflexivity. Qed.

Lemma bind_exc {A B} (m : M A) (k : A -> M B) w e w' :
  m w = (Exc e, w') -> bind m k w = (Exc e, w').
Proof. unfold bind. intros ->. reflexivity. Qed.


Lemma Ok_inj {A} (a b : A) : Ok a = Ok b -> a = b.
Proof. congruence. Qed.


Lemma body_hits records total d :
  py_get (listing_body records total) (py "hits") d
  = Ok (JObj [(py "hits", JArr records); (py "total", JInt total)]).
Proof. reflexivity. Qed.

Lemma hits_hits records total d :
  py_get (JObj [(py "hits", JArr records); (py "total", JInt total)])
    (py "hits") d = Ok (JArr records).
Proof. reflexivity. Qed.

Lemma hits_total records total d :
  py_get (JObj [(py "hits", JArr records); (py "total", JInt total)])
    (py "total") d = Ok (JInt total).
Proof. reflexivity. Qed.

Ltac run :=
  cbv beta iota zeta delta
    [bind ret lift raise print sent set_fs get_fs diverge sys_exit
     try_except get_records_page response_json after_loop
     add_lines add_request with_fs negb fst snd];
  cbn [w_fs w_requests w_console].

(** ** The record enumerator *)

Section Enumerator.
Context `{NET : remote}.

(** One iteration of the page loop on a well-formed page. *)
Lemma records_loop_page fuel debug size page acc w text records total :
  listing page size
  = ListingResponse 200 text (Some (listing_body records total)) ->
  records_loop (S fuel) debug size page acc w
  = match records with
    | [] =>
        (Val acc,
         add_lines [OutTotalFound (length acc)]
           (add_request (GetRecords page size) w))
    | _ =>
        let acc' := acc ++ records in
        let w' := add_lines [OutFetchedPage page (length acc')]
                    (add_request (GetRecords page size) w) in
        if debug && (2 <=? length acc') then
          (Val (take 2 acc'),
           add_lines [OutTotalFound (length (take 2 acc'))] w')
        else if (total <=? Z.of_nat (length acc'))%Z then
          (Val acc', add_lines [OutTotalFound (length acc')] w')
        else records_loop fuel debug size (S page) acc' w'
    end.
Proof.
  intros Hpage. cbn [records_loop]. run. rewrite Hpage. run.
  rewrite Z.eqb_refl, body_hits. run. rewrite hits_hits, hits_total. run.
  destruct records as [ | r records]; [reflexivity | ].
  cbn [truthy py_iter py_int_ge]. run.
  destruct (debug && _); [reflexivity | ].
  destruct (_ <=? _)%Z; reflexivity.
Qed.



(** The loop stops on an empty page and on a page that brings the count up
    to the reported total. *)
Lemma records_loop_stops fuel size page acc w text records total :
  listing page size
  = ListingResponse 200 text (Some (listing_body records total)) ->
  records = [] \/ (total <= Z.of_nat (length (acc ++ records)))%Z ->
  exists console,
    records_loop (S fuel) false size page acc w
    = (Val (acc ++ records),
       World (w_fs w) (w_requests w ++ [GetRecords page size]) console).
Proof.
  intros Hpage Hstop.
  rewrite (records_loop_page _ _ _ _ _ _ _ _ _ Hpage).
  destruct records as [ | r records].
  - rewrite app_nil_r. eexists. reflexivity.
  - destruct Hstop as [Hnil | Htotal]; [discriminate | ].
    cbn [andb]. cbv zeta.
    apply Z.leb_le in Htotal. rewrite Htotal. eexists. reflexivity.
Qed.

End Enumerator.

Lemma pages_needed_bounds n size :
  1 <= size ->
  1 <= pages_needed n size
  /\ (n = 0 /\ pages_needed n size = 1
      \/ (pages_needed n size - 1) * size < n <= pages_needed n size * size).
Proof.
  intros Hsize. destruct n as [ | m]; cbn [pages_needed].
  - split; [lia | left; split; reflexivity].
  - split; [lia | right].
    pose proof (Nat.div_mod m size ltac:(lia)) as Hdm.
    pose proof (Nat.mod_upper_bound m size ltac:(lia)) as Hlt.
    replace (S (m / size) - 1) with (m / size) by lia.
    split; nia.
Qed.

Section HonestListing.
Context (L : list json) (files : json -> file_reply).

#[local] Instance honest : remote := serve L files.

Lemma honest_page page size :
  listing page size
  = ListingResponse 200 []
      (Some (listing_body (page_of L page size) (Z.of_nat (length L)))).
Proof. reflexivity. Qed.

(** After [j] full pages the loop holds the first [j * size] records; it
    then fetches exactly the [k] pages that are left. *)
Lemma honest_loop size k :
  1 <= size ->
  forall j fuel w,
    1 <= k -> k <= fuel ->
    (j + k - 1) * size < length L <= (j + k) * size ->
    exists console,
      records_loop fuel false size (S j) (take (j * size) L) w
      = (Val L,
         World (w_fs w) (w_requests w ++ pages size (S j) k) console).
Proof.
  intros Hsize. induction k as [ | k IH]; intros j fuel w Hk Hfuel Hn; [lia | ].
  destruct fuel as [ | fuel]; [lia | ].
  rewrite (records_loop_page _ _ _ _ _ _ _ _ _ (honest_page (S j) size)).
  unfold page_of. replace (S j - 1) with j by lia.
  destruct (take size (drop (j * size) L)) as [ | r rs] eqn:Hslice.
  { apply (f_equal length) in Hslice.
    rewrite length_take, length_drop in Hslice. cbn in Hslice. nia. }
  rewrite <- Hslice, take_take_drop. cbn [andb]. cbv zeta.
  rewrite length_take.
  destruct (Z.leb_spec (Z.of_nat (length L))
              (Z.of_nat (Nat.min (j * size + size) (length L)))) as [Hle | Hgt].
  - assert (k = 0) as -> by nia.
    rewrite take_ge by lia. eexists. reflexivity.
  - assert (1 <= k) by nia.
    replace (j * size + size) with (S j * size) by lia.
    destruct (IH (S j) fuel
                (add_lines [OutFetchedPage (S j)
                              (Nat.min (S j * size) (length L))]
                   (add_request (GetRecords (S j) size) w)))
      as [console Hrun]; [lia | lia | nia | ].
    rewrite Hrun. eexists. unfold pages. cbn [seq map w_fs w_requests add_lines add_request].
    rewrite <- app_assoc. reflexivity.
Qed.

(** C1: against a service that lists [L] in a fixed order, with any page
    size of at least 1, the page loop returns exactly [L] (every record
    once, in listing order) after requesting pages [1..k], where [k] is the
    first page at which the count reaches the reported total (one page for
    an empty listing); [get_iodp_records] outside debug mode returns [L];
    and against any service the loop ends on an empty page and on a page
    that brings the count up to the reported total. *)
Theorem enumerator_returns_listing (size : nat) (w : world) :
  1 <= size ->
  let k := pages_needed (length L) size in
  (forall fuel, k <= fuel ->
     exists console,
       records_loop fuel false size 1 [] w
       = (Val L, World (w_fs w) (w_requests w ++ pages size 1 k) console))
  /\ (length L = 0 /\ k = 1 \/ (k - 1) * size < length L <= k * size)
  /\ (forall fuel, pages_needed (length L) 50 <= fuel ->
        exists console,
          get_iodp_records fuel false w
          = (Val L,
             World (w_fs w)
               (w_requests w
                ++ pages 50 1 (pages_needed (length L) 50)) console))
  /\ (forall (other : remote) fuel page acc w' text records total,
        @listing other page size
        = ListingResponse 200 text (Some (listing_body records total)) ->
        records = [] \/ (total <= Z.of_nat (length (acc ++ records)))%Z ->
        exists console,
          @records_loop other (S fuel) false size page acc w'
          = (Val (acc ++ records),
             World (w_fs w') (w_requests w' ++ [GetRecords page size])
               console)).
Proof.
  intros Hsize k.
  assert (Hloop : forall size' w', 1 <= size' ->
            forall fuel, pages_needed (length L) size' <= fuel ->
            exists console,
              records_loop fuel false size' 1 [] w'
              = (Val L,
                 World (w_fs w')
                   (w_requests w' ++ pages size' 1 (pages_needed (length L) size'))
                   console)).
  { intros size' w' Hsize' fuel Hfuel.
    destruct (pages_needed_bounds (length L) size' Hsize') as [Hk [[Hn Hk1] | Hb]].
    - rewrite Hk1 in *. destruct fuel as [ | fuel]; [lia | ].
      rewrite (records_loop_page _ _ _ _ _ _ _ _ _ (honest_page 1 size')).
      apply nil_length_inv in Hn. rewrite Hn. unfold page_of.
      rewrite drop_nil, take_nil. eexists. reflexivity.
    - apply (honest_loop size' _ Hsize' 0 fuel w'); [lia | lia | ].
      replace (0 + pages_needed (length L) size') with (pages_needed (length L) size') by lia.
      exact Hb. }
  split; [ | split; [ | split ] ].
  - intros fuel Hfuel. apply Hloop; assumption.
  - apply pages_needed_bounds. assumption.
  - intros fuel Hfuel. unfold get_iodp_records.
    destruct (Hloop 50 (add_lines [OutFetching false] w) ltac:(lia) fuel Hfuel)
      as [console Hrun].
    exists console. run. exact Hrun.
  - intros other fuel page acc w' text records total Hpage Hstop.
    exact (@records_loop_stops other fuel size page acc w' text records total Hpage Hstop).
Qed.

End HonestListing.

(** Three records, two per page: two pages are requested. *)
Lemma enumerator_returns_listing_example :
  1 <= 2
  /\ exists console,
       @records_loop (serve three_records no_files)
         2 false 2 1 [] empty_world
       = (Val three_records,
          World ∅ [GetRecords 1 2; GetRecords 2 2] console).
Proof.
  split; [lia | ].
  exact (proj1 (@enumerator_returns_listing three_records
                  no_files 2 empty_world ltac:(lia)) 2 ltac:(cbn; lia)).
Defined.

(** ** Partial results on a failed page *)

Ltac loop_iter H :=
  cbn [records_loop]; run; rewrite H; run; rewrite ?Z.eqb_refl; run.

Section PartialResults.
Context `{NET : remote}.

Lemma records_loop_error fuel debug size page acc w status_code text body :
  listing page size = ListingResponse status_code text body ->
  (status_code =? 200)%Z = false ->
  records_loop (S fuel) debug size page acc w
  = (Val acc,
     add_lines [OutErrorFetching status_code; OutResponse text;
                OutTotalFound (length acc)]
       (add_request (GetRecords page size) w)).
Proof.
  intros Hpage Hstatus. cbn [records_loop]. run.
  rewrite Hpage. run. rewrite Hstatus. run.
  rewrite <- !app_assoc. reflexivity.
Qed.

Lemma records_loop_moves_on fuel debug size page acc items w :
  moves_on debug size page acc items ->
  records_loop (S fuel) debug size page acc w
  = records_loop fuel debug size (S page) (acc ++ items)
      (add_lines [OutFetchedPage page (length (acc ++ items))]
         (add_request (GetRecords page size) w)).
Proof.
  intros (text & data & hits & records & total
          & Hpage & Hhits & Hrecords & Htruthy & Hitems & Hdebug & Htotal & Hge).
  cbn [records_loop]. run. rewrite Hpage. run.
  rewrite Z.eqb_refl, Hhits. run. rewrite Hrecords. run.
  rewrite Htruthy, Hitems. run. rewrite Hdebug, Htotal. run.
  rewrite Hge. reflexivity.
Qed.

Lemma truthy_items records items :
  truthy records = true -> py_iter records = Ok items -> items <> [].
Proof.
  destruct records as [ | b | n | s | xs | kvs]; cbn [truthy py_iter];
    intros Ht Hi; try discriminate; apply Ok_inj in Hi; subst items.
  - destruct s; [discriminate | discriminate].
  - destruct xs; [discriminate | discriminate].
  - destruct kvs; [discriminate | discriminate].
Qed.

(** One iteration either ends the loop or moves on to the next page. *)
Lemma records_loop_step fuel debug size page acc w :
  (exists o ls,
     records_loop (S fuel) debug size page acc w
     = (o, add_lines ls (add_request (GetRecords page size) w))
     /\ stops_with debug acc o)
  \/ (exists items,
        moves_on debug size page acc items
        /\ items <> []
        /\ records_loop (S fuel) debug size page acc w
           = records_loop fuel debug size (S page) (acc ++ items)
               (add_lines [OutFetchedPage page (length (acc ++ items))]
                  (add_request (GetRecords page size) w))).
Proof.
  assert (Hnil : forall w0 : world, add_lines [] w0 = w0).
  { intros [fs rq co]. unfold add_lines. cbn. rewrite app_nil_r. reflexivity. }
  destruct (listing page size) as [ | status_code text body] eqn:Hpage.
  { left. exists (Exc RequestException), []. rewrite Hnil.
    cbn [records_loop]. run. rewrite Hpage. run; rewrite <- ?app_assoc; split; [reflexivity | exact I]. }
  destruct (status_code =? 200)%Z eqn:Hstatus.
  2:{ left. eexists (Val acc), _.
      rewrite (records_loop_error _ _ _ _ _ _ _ _ _ Hpage Hstatus).
      run; rewrite <- ?app_assoc; split; [reflexivity | left; reflexivity]. }
  apply Z.eqb_eq in Hstatus. subst status_code.
  destruct body as [data | ].
  2:{ left. exists (Exc JSONDecodeError), []. rewrite Hnil.
      loop_iter Hpage.
      run; rewrite <- ?app_assoc; split; [reflexivity | exact I]. }
  destruct (py_get data (py "hits") (JObj [])) as [hits | e] eqn:Hhits.
  2:{ left. exists (Exc e), []. rewrite Hnil.
      loop_iter Hpage. rewrite Hhits.
      run; rewrite <- ?app_assoc; split; [reflexivity | exact I]. }
  destruct (py_get hits (py "hits") (JArr [])) as [records | e] eqn:Hrecords.
  2:{ left. exists (Exc e), []. rewrite Hnil.
      loop_iter Hpage. rewrite Hhits. run.
      rewrite Hrecords. run; rewrite <- ?app_assoc; split; [reflexivity | exact I]. }
  destruct (truthy records) eqn:Htruthy.
  2:{ left. eexists (Val acc), _.
      loop_iter Hpage. rewrite Hhits. run.
      rewrite Hrecords. run. rewrite Htruthy.
      run; rewrite <- ?app_assoc; split; [reflexivity | left; reflexivity]. }
  destruct (py_iter records) as [items | e] eqn:Hitems.
  2:{ left. exists (Exc e), []. rewrite Hnil.
      loop_iter Hpage. rewrite Hhits. run.
      rewrite Hrecords. run. rewrite Htruthy, Hitems.
      run; rewrite <- ?app_assoc; split; [reflexivity | exact I]. }
  pose proof (truthy_items _ _ Htruthy Hitems) as Hne.
  destruct (debug && (2 <=? length (acc ++ items))) eqn:Hdebug.
  { left. eexists (Val (take 2 (acc ++ items))), _.
    loop_iter Hpage. rewrite Hhits. run.
    rewrite Hrecords. run. rewrite Htruthy, Hitems. run. rewrite Hdebug.
    run; rewrite <- ?app_assoc. split; [reflexivity | ]. right. exists items. split; [exact Hne | left].
    split; [ | reflexivity]. destruct debug; [reflexivity | discriminate]. }
  destruct (py_get hits (py "total") (JInt 0)) as [total | e] eqn:Htotal.
  2:{ left. eexists (Exc e), _.
      loop_iter Hpage. rewrite Hhits. run.
      rewrite Hrecords. run. rewrite Htruthy, Hitems. run.
      rewrite Hdebug, Htotal. run; rewrite <- ?app_assoc; split; [reflexivity | exact I]. }
  destruct (py_int_ge (length (acc ++ items)) total) as [[ | ] | e] eqn:Hge.
  - left. eexists (Val (acc ++ items)), _.
    loop_iter Hpage. rewrite Hhits. run.
    rewrite Hrecords. run. rewrite Htruthy, Hitems. run.
    rewrite Hdebug, Htotal. run. rewrite Hge.
    run; rewrite <- ?app_assoc. split; [reflexivity | ]. right. exists items. split; [exact Hne | right].
    split; [exact Hdebug | reflexivity].
  - right. exists items. split; [ | split; [exact Hne | ] ].
    + exists text, data, hits, records, total. repeat split; assumption.
    + apply records_loop_moves_on.
      exists text, data, hits, records, total. repeat split; assumption.
  - left. eexists (Exc e), _.
    loop_iter Hpage. rewrite Hhits. run.
    rewrite Hrecords. run. rewrite Htruthy, Hitems. run.
    rewrite Hdebug, Htotal. run. rewrite Hge. run; rewrite <- ?app_assoc; split; [reflexivity | exact I].
Qed.



End PartialResults.


(** ** The file mirror *)

Lemma mkdir_run `{RT : runtime} p w :
  mkdir_exist_ok p w
  = match made_dir (w_fs w) p with
    | Some fs' => (Val tt, with_fs fs' w)
    | None => (Exc OSError, w)
    end.
Proof.
  unfold mkdir_exist_ok, made_dir. run.
  destruct (fs_lookup (w_fs w) p) as [[content | ] | ]; run.
  - reflexivity.
  - destruct w; reflexivity.
  - destruct (fs_lookup (w_fs w) (path_parent p)) as [[content | ] | ];
      try reflexivity.
    destruct (rt_path_ok p); reflexivity.
Qed.

(** Run as far as the equations at hand allow. *)
Ltac use_eqs :=
  repeat (run; rewrite ?mkdir_run; cbn [w_fs w_requests w_console];
          match goal with
          | H : ?x = _ |- context [match ?x with _ => _ end] => rewrite H
          end);
  run.

Section Mirror.
Context `{RT : runtime} `{NET : remote}.

Lemma write_chunks_run p chunks breaks w content :
  w_fs w !! p = Some (NFile content) ->
  write_chunks p chunks breaks w
  = (if breaks then Exc RequestException else Val tt,
     with_fs (<[p := NFile (content ++ concat chunks)]> (w_fs w)) w).
Proof.
  revert w content. induction chunks as [ | chunk rest IH]; intros w content Hp.
  - cbn [write_chunks concat]. rewrite app_nil_r, insert_id by exact Hp.
    destruct breaks, w; reflexivity.
  - cbn [write_chunks concat]. destruct chunk as [ | b chunk].
    + run. rewrite (IH w content Hp). reflexivity.
    + unfold write. run. rewrite Hp. run.
      rewrite (IH _ (content ++ b :: chunk)).
      * unfold with_fs. cbn [w_fs w_requests w_console].
        rewrite insert_insert_eq, <- app_assoc. reflexivity.
      * cbn [w_fs]. apply lookup_insert_eq.
Qed.

Lemma open_w_run p w :
  open_w p w
  = if can_open (w_fs w) p
    then (Val tt, with_fs (<[p := NFile []]> (w_fs w)) w)
    else (Exc OSError, w).
Proof.
  unfold open_w, can_open. run.
  destruct (fs_lookup (w_fs w) p) as [[content | ] | ]; run; try reflexivity.
  destruct (fs_lookup (w_fs w) (path_parent p)) as [[content | ] | ];
    reflexivity.
Qed.

Lemma fs_lookup_insert_ne fs p q n :
  p <> q -> fs_lookup (<[p := n]> fs) q = fs_lookup fs q.
Proof.
  intros Hne. unfold fs_lookup. destruct (snd q); [reflexivity | ].
  apply lookup_insert_ne. exact Hne.
Qed.

Lemma fs_lookup_insert_eq fs p n :
  snd p <> [] -> fs_lookup (<[p := n]> fs) p = Some n.
Proof.
  intros Hp. unfold fs_lookup. destruct (snd p); [congruence | ].
  apply lookup_insert_eq.
Qed.

Lemma fs_lookup_None_parts fs p : fs_lookup fs p = None -> snd p <> [].
Proof. unfold fs_lookup. destruct (snd p); [discriminate | congruence]. Qed.

(** [mkdir] leaves every existing entry as it is and makes [p] a
    directory. *)
Lemma made_dir_keeps fs p fs' q n :
  made_dir fs p = Some fs' ->
  fs_lookup fs q = Some n -> fs_lookup fs' q = Some n.
Proof.
  unfold made_dir. intros Hmade Hq.
  destruct (fs_lookup fs p) as [[content | ] | ] eqn:Hp; try discriminate.
  - congruence.
  - destruct (fs_lookup fs (path_parent p)) as [[content | ] | ];
      try discriminate.
    destruct (rt_path_ok p); [ | discriminate].
    injection Hmade as <-. rewrite fs_lookup_insert_ne; [exact Hq | ].
    intros ->. congruence.
Qed.

Lemma made_dir_is_dir fs p fs' :
  made_dir fs p = Some fs' -> fs_lookup fs' p = Some NDir.
Proof.
  unfold made_dir. intros Hmade.
  destruct (fs_lookup fs p) as [[content | ] | ] eqn:Hp; try discriminate.
  - congruence.
  - destruct (fs_lookup fs (path_parent p)) as [[content | ] | ];
      try discriminate.
    destruct (rt_path_ok p); [ | discriminate].
    injection Hmade as <-. apply fs_lookup_insert_eq.
    eapply fs_lookup_None_parts. exact Hp.
Qed.

Lemma made_dir_again fs p :
  fs_lookup fs p = Some NDir -> made_dir fs p = Some fs.
Proof. unfold made_dir. intros ->. reflexivity. Qed.

Lemma make_dirs_run tg w :
  make_dirs tg w
  = match made_dir (w_fs w) (t_record_dir tg) with
    | Some fs1 =>
        match made_dir fs1 (t_title_dir tg) with
        | Some fs2 => (Val tt, with_fs fs2 w)
        | None => (Exc OSError, with_fs fs1 w)
        end
    | None => (Exc OSError, w)
    end.
Proof.
  unfold make_dirs. run. rewrite mkdir_run.
  destruct (made_dir (w_fs w) (t_record_dir tg)) as [fs1 | ]; [ | reflexivity].
  rewrite mkdir_run. cbn [w_fs with_fs].
  destruct (made_dir fs1 (t_title_dir tg)); reflexivity.
Qed.

(** What a successful [make_dirs] leaves behind. *)
Lemma make_dirs_ok tg w w1 :
  make_dirs tg w = (Val tt, w1) ->
  w_requests w1 = w_requests w
  /\ w_console w1 = w_console w
  /\ fs_lookup (w_fs w1) (t_record_dir tg) = Some NDir
  /\ fs_lookup (w_fs w1) (t_title_dir tg) = Some NDir
  /\ forall q n, fs_lookup (w_fs w) q = Some n ->
                 fs_lookup (w_fs w1) q = Some n.
Proof.
  rewrite make_dirs_run.
  destruct (made_dir (w_fs w) (t_record_dir tg)) as [fs1 | ] eqn:H1;
    [ | discriminate].
  destruct (made_dir fs1 (t_title_dir tg)) as [fs2 | ] eqn:H2;
    [ | discriminate].
  intros Heq. injection Heq as <-. cbn [with_fs w_fs w_requests w_console].
  repeat split.
  - eapply made_dir_keeps; [exact H2 | ].
    eapply made_dir_is_dir. exact H1.
  - eapply made_dir_is_dir. exact H2.
  - intros q n Hq. eapply made_dir_keeps; [exact H2 | ].
    eapply made_dir_keeps; [exact H1 | exact Hq].
Qed.

Lemma make_dirs_again tg w :
  fs_lookup (w_fs w) (t_record_dir tg) = Some NDir ->
  fs_lookup (w_fs w) (t_title_dir tg) = Some NDir ->
  make_dirs tg w = (Val tt, w).
Proof.
  intros Hr Ht. rewrite make_dirs_run, (made_dir_again _ _ Hr),
    (made_dir_again _ _ Ht). destruct w; reflexivity.
Qed.

(** Once the target is computed and its directories are made,
    [download_file] behaves as [fetch_result] says. *)
Lemma download_file_run file_info record_id record_title tg w w1 :
  file_target file_info record_id record_title = Ok tg ->
  make_dirs tg w = (Val tt, w1) ->
  download_file file_info record_id record_title w
  = (Val (fst (fetch_result tg w1)), snd (fetch_result tg w1)).
Proof.
  unfold file_target, make_dirs. intros Htg Hdirs.
  destruct (py_index file_info (py "key")) as [filename | ] eqn:Hkey;
    [ | discriminate].
  destruct (py_index file_info (py "links")) as [links | ] eqn:Hlinks;
    [ | discriminate].
  cbn [res_bind] in Htg.
  destruct (py_index links (py "self")) as [url | ] eqn:Hurl; [ | discriminate].
  destruct (py_get file_info (py "size") (JInt 0)) as [size | ] eqn:Hsize;
    [ | discriminate].
  cbn [res_bind] in Htg.
  destruct (safe_title record_title) as [safe | ] eqn:Hsafe; [ | discriminate].
  cbn [res_bind] in Htg.
  destruct (path_join_value _ filename) as [file_path | ] eqn:Hpath;
    [ | discriminate].
  cbn [res_bind] in Htg.
  destruct (examine file_path) as [[] | ] eqn:Hlook; [ | discriminate].
  cbn [res_bind] in Htg. apply Ok_inj in Htg. subst tg.
  cbv beta iota delta [t_record_dir t_title_dir] in Hdirs.
  unfold download_file. rewrite Hkey, Hlinks. run. rewrite Hurl, Hsize. run.
  unfold bind in Hdirs.
  destruct (mkdir_exist_ok _ w) as [[[] | | | ] wa] eqn:Hrd; try discriminate.
  rewrite Hsafe. run. rewrite Hdirs, Hpath. run. rewrite Hlook. run.
  unfold fetch_result.
  cbn [t_filename t_url t_size t_record_dir t_title_dir t_path].
  destruct (already_there (w_fs w1) file_path size); [reflexivity | ].
  unfold get_file. run.
  destruct (download url) as [ | status_code chunks breaks]; [reflexivity | ].
  fold (http_error status_code).
  destruct (http_error status_code); [reflexivity | ]. run.
  rewrite open_w_run. cbn [w_fs].
  destruct (can_open (w_fs w1) file_path); [ | reflexivity].
  rewrite (write_chunks_run _ _ _ _ []) by (cbn [w_fs with_fs]; apply lookup_insert_eq).
  unfold with_fs. cbn [w_fs w_requests w_console app].
  rewrite insert_insert_eq.
  destruct breaks; reflexivity.
Qed.






Lemma file_target_inv file_info record_id record_title tg :
  file_target file_info record_id record_title = Ok tg ->
  exists links safe,
    py_index file_info (py "key") = Ok (t_filename tg)
    /\ py_index file_info (py "links") = Ok links
    /\ py_index links (py "self") = Ok (t_url tg)
    /\ py_get file_info (py "size") (JInt 0) = Ok (t_size tg)
    /\ safe_title record_title = Ok safe
    /\ t_record_dir tg
       = path_join data_dir (py "record_" ++ py_str record_id)
    /\ t_title_dir tg = path_join (t_record_dir tg) (take 100 safe)
    /\ path_join_value (t_title_dir tg) (t_filename tg) = Ok (t_path tg).
Proof.
  unfold file_target. intros Htg.
  destruct (py_index file_info (py "key")) as [filename | ] eqn:Hkey;
    [ | discriminate].
  destruct (py_index file_info (py "links")) as [links | ] eqn:Hlinks;
    [ | discriminate].
  cbn [res_bind] in Htg.
  destruct (py_index links (py "self")) as [url | ] eqn:Hurl; [ | discriminate].
  destruct (py_get file_info (py "size") (JInt 0)) as [size | ] eqn:Hsize;
    [ | discriminate].
  cbn [res_bind] in Htg.
  destruct (safe_title record_title) as [safe | ] eqn:Hsafe; [ | discriminate].
  cbn [res_bind] in Htg.
  destruct (path_join_value _ filename) as [file_path | ] eqn:Hpath;
    [ | discriminate].
  cbn [res_bind] in Htg.
  destruct (examine file_path) as [[] | ] eqn:Hlook; [ | discriminate].
  cbn [res_bind] in Htg. apply Ok_inj in Htg. subst tg.
  exists links, safe.
  cbv beta iota delta [t_filename t_url t_size t_record_dir t_title_dir t_path].
  repeat split; assumption || reflexivity.
Qed.

(** The platform lets the script look at the path of a target. *)
Lemma file_target_examined file_info record_id record_title tg :
  file_target file_info record_id record_title = Ok tg ->
  rt_path_ok (t_path tg) = true.
Proof.
  unfold file_target. intros Htg.
  destruct (py_index file_info (py "key")) as [filename | ]; [ | discriminate].
  destruct (py_index file_info (py "links")) as [links | ]; [ | discriminate].
  cbn [res_bind] in Htg.
  destruct (py_index links (py "self")) as [url | ]; [ | discriminate].
  destruct (py_get file_info (py "size") (JInt 0)) as [size | ];
    [ | discriminate].
  cbn [res_bind] in Htg.
  destruct (safe_title record_title) as [safe | ]; [ | discriminate].
  cbn [res_bind] in Htg.
  destruct (path_join_value _ filename) as [file_path | ]; [ | discriminate].
  cbn [res_bind] in Htg. unfold examine in Htg.
  destruct (rt_path_ok file_path) eqn:Hok; [ | discriminate].
  cbn [res_bind] in Htg. apply Ok_inj in Htg. subst tg. exact Hok.
Qed.

(** [download_file] either gets as far as its check, or raises before it
    has printed or requested anything. *)
Lemma download_file_cases file_info record_id record_title w :
  (exists tg w1,
     file_target file_info record_id record_title = Ok tg
     /\ make_dirs tg w = (Val tt, w1))
  \/ (exists e fs',
        download_file file_info record_id record_title w
        = (Exc e, with_fs fs' w)).
Proof.
  unfold file_target, download_file.
  destruct (py_index file_info (py "key")) as [filename | e] eqn:Hkey.
  2:{ right. exists e, (w_fs w). use_eqs. destruct w; reflexivity. }
  destruct (py_index file_info (py "links")) as [links | e] eqn:Hlinks.
  2:{ right. exists e, (w_fs w). use_eqs. destruct w; reflexivity. }
  cbn [res_bind].
  destruct (py_index links (py "self")) as [url | e] eqn:Hurl.
  2:{ right. exists e, (w_fs w). use_eqs. destruct w; reflexivity. }
  destruct (py_get file_info (py "size") (JInt 0)) as [size | e] eqn:Hsize.
  2:{ right. exists e, (w_fs w). use_eqs. destruct w; reflexivity. }
  cbn [res_bind].
  set (record_dir := path_join data_dir (py "record_" ++ py_str record_id)).
  destruct (made_dir (w_fs w) record_dir) as [fs1 | ] eqn:Hrd.
  2:{ right. exists OSError, (w_fs w). use_eqs. destruct w; reflexivity. }
  destruct (safe_title record_title) as [safe | e] eqn:Hsafe.
  2:{ right. exists e, fs1. use_eqs. reflexivity. }
  cbn [res_bind].
  destruct (made_dir fs1 (path_join record_dir (take 100 safe)))
    as [fs2 | ] eqn:Htd.
  2:{ right. exists OSError, fs1. use_eqs. reflexivity. }
  destruct (path_join_value (path_join record_dir (take 100 safe)) filename)
    as [file_path | e] eqn:Hpath.
  2:{ right. exists e, fs2. use_eqs. reflexivity. }
  cbn [res_bind].
  destruct (examine file_path) as [[] | e] eqn:Hlook.
  2:{ right. exists e, fs2. use_eqs. reflexivity. }
  left. cbn [res_bind]. eexists _, (with_fs fs2 w). split; [reflexivity | ].
  rewrite make_dirs_run. cbn [t_record_dir t_title_dir].
  fold record_dir. rewrite Hrd, Htd. reflexivity.
Qed.

Lemma handled_files_app ls1 ls2 :
  handled_files (ls1 ++ ls2) = handled_files ls1 ++ handled_files ls2.
Proof. unfold handled_files. apply omap_app. Qed.

(** What one call of [download_file] leaves on the console and on the
    wire: nothing if it raises; otherwise one line naming the file, and at
    most one request. *)
Lemma download_file_trace file_info record_id record_title w :
  exists o w' new,
    download_file file_info record_id record_title w = (o, w')
    /\ w_console w' = w_console w ++ new
    /\ ((exists e, o = Exc e) /\ new = [] /\ w_requests w' = w_requests w
        \/ (exists ok name,
              o = Val ok
              /\ py_index file_info (py "key") = Ok name
              /\ handled_files new = [name]
              /\ length (w_requests w') <= length (w_requests w) + 1)).
Proof.
  destruct (download_file_cases file_info record_id record_title w)
    as [(tg & w1 & Htg & Hdirs) | (e & fs' & Hrun)].
  - destruct (make_dirs_ok _ _ _ Hdirs) as (Hreq & Hcon & _).
    destruct (file_target_inv _ _ _ _ Htg) as (links & safe & Hkey & _).
    rewrite (download_file_run _ _ _ _ _ _ Htg Hdirs).
    unfold fetch_result.
    destruct (already_there (w_fs w1) (t_path tg) (t_size tg)).
    + eexists _, _, _. split; [reflexivity | ].
      cbn [fst snd add_lines w_console w_requests]. rewrite Hcon, Hreq.
      split; [reflexivity | right]. eexists _, _.
      split; [reflexivity | split; [exact Hkey | split; [reflexivity | lia] ] ].
    + cbv zeta.
      destruct (download (t_url tg)) as [ | st chunks breaks];
        [ | destruct (http_error st);
            [ | destruct (can_open _ _); [destruct breaks | ] ] ];
        (eexists _, _, _; split; [reflexivity | ];
         cbn [fst snd add_lines add_request with_fs w_console w_requests];
         rewrite Hcon, Hreq, <- app_assoc;
         split; [reflexivity | right]; eexists _, _;
         split; [reflexivity
                | split; [exact Hkey
                         | split; [reflexivity
                                  | rewrite length_app; cbn [length]; lia] ] ]).
  - rewrite Hrun. exists (Exc e), (with_fs fs' w), [].
    cbn [with_fs w_console w_requests]. rewrite app_nil_r.
    split; [reflexivity | split; [reflexivity | left] ]. eauto.
Qed.

Lemma download_files_trace files record_id title :
  forall success_count w,
  exists o w' new done,
    download_files files record_id title success_count w = (o, w')
    /\ w_console w' = w_console w ++ new
    /\ done `prefix_of` files
    /\ Forall2 (fun file_info name => py_index file_info (py "key") = Ok name)
         done (handled_files new)
    /\ length (w_requests w')
       <= length (w_requests w) + length (handled_files new)
    /\ match o with
       | Val n => n <= success_count + length files
       | Exc _ => True
       | _ => False
       end.
Proof.
  induction files as [ | file_info rest IH]; intros success_count w.
  - exists (Val success_count), w, [], []. cbn [download_files]. run.
    rewrite app_nil_r.
    split; [reflexivity | split; [reflexivity | ] ].
    split; [apply prefix_nil | split; [constructor | ] ].
    cbn. split; lia.
  - cbn [download_files].
    destruct (download_file_trace file_info record_id title w)
      as (o & w1 & new1 & Hrun & Hcon & Hcase).
    unfold bind at 1. rewrite Hrun.
    destruct Hcase as [([e ->] & -> & Hreq) | (ok & name & -> & Hkey & Hh & Hreq)].
    + exists (Exc e), w1, [], []. rewrite Hcon.
      split; [reflexivity | split; [reflexivity | ] ].
      split; [apply prefix_nil | split; [constructor | ] ].
      rewrite Hreq. cbn. split; [lia | exact I].
    + destruct (IH (if ok then S success_count else success_count) w1)
        as (o2 & w2 & new2 & done & Hrun2 & Hcon2 & Hpre & Hkeys & Hreq2 & Ho).
      exists o2, w2, (new1 ++ new2), (file_info :: done).
      rewrite Hrun2, Hcon2, Hcon, <- app_assoc, handled_files_app, Hh.
      split; [reflexivity | split; [reflexivity | ] ].
      split; [apply prefix_cons; exact Hpre | ].
      split; [constructor; assumption | ].
      split; [cbn [app length]; lia | ].
      destruct o2 as [n | | | ]; try exact Ho.
      cbn [length]. destruct ok; lia.
Qed.


End Mirror.




(** ** Debug mode *)

Section DebugMode.
Context `{RT : runtime} `{NET : remote}.

Lemma records_loop_debug fuel :
  forall page acc w,
    length acc < 2 -> 2 - length acc <= fuel ->
    exists o w',
      records_loop fuel true 2 page acc w = (o, w')
      /\ match o with
         | Val rs => length rs <= 2
         | Exc _ => True
         | _ => False
         end
      /\ length (w_requests w') <= length (w_requests w) + (2 - length acc).
Proof.
  induction fuel as [ | fuel IH]; intros page acc w Hacc Hfuel; [lia | ].
  destruct (records_loop_step fuel true 2 page acc w)
    as [(o & ls & Hrun & Hstop) | (items & Hmove & Hne & Hrun)].
  - rewrite Hrun. eexists _, _. split; [reflexivity | ]. split.
    + destruct o as [rs | e | c | ]; try exact Hstop.
      destruct Hstop as [-> | (items & Hne & [[_ ->] | [Hsmall ->] ])].
      * lia.
      * rewrite length_take. lia.
      * cbn [andb] in Hsmall. apply Nat.leb_gt in Hsmall. lia.
    + cbn [add_lines add_request w_requests]. rewrite length_app.
      cbn [length]. lia.
  - rewrite Hrun.
    destruct Hmove as (text & data & hits & records & total
                       & _ & _ & _ & _ & _ & Hsmall & _).
    cbn [andb] in Hsmall. apply Nat.leb_gt in Hsmall.
    rewrite length_app in Hsmall.
    assert (0 < length items) by (destruct items; [congruence | cbn; lia]).
    destruct (IH (S page) (acc ++ items)
                (add_lines [OutFetchedPage page (length (acc ++ items))]
                   (add_request (GetRecords page 2) w)))
      as (o & w' & Hrun' & Ho & Hreq).
    + rewrite length_app. lia.
    + rewrite length_app. lia.
    + exists o, w'. split; [exact Hrun' | split; [exact Ho | ] ].
      revert Hreq. cbn [add_lines add_request w_requests].
      rewrite !length_app. cbn [length]. lia.
Qed.

(** The items the mirror iterates over in debug mode. *)
Lemma debug_items files n files' items :
  py_len files = Ok n ->
  (if 2 <? n then py_slice2 files else Ok files) = Ok files' ->
  py_iter files' = Ok items ->
  length items <= 2
  /\ forall xs, files = JArr xs -> items = take 2 xs.
Proof.
  intros Hlen Hslice Hiter.
  destruct files as [ | b | z | s | xs | kvs]; try discriminate;
    cbn [py_len] in Hlen; apply Ok_inj in Hlen; subst n;
    match type of Hslice with
    | (if 2 <? ?m then _ else _) = _ =>
        destruct (Nat.ltb_spec 2 m) as [Hlong | Hshort]
    end;
    cbn [py_slice2] in Hslice; try discriminate;
    apply Ok_inj in Hslice; subst files'; cbn [py_iter] in Hiter;
    apply Ok_inj in Hiter; subst items.
  - rewrite length_map, length_take. split; [lia | discriminate].
  - rewrite length_map. split; [lia | discriminate].
  - rewrite length_take. split; [lia | ]. intros ? [= ->]. reflexivity.
  - split; [lia | ]. intros ? [= ->]. rewrite take_ge by lia. reflexivity.
  - rewrite length_map. split; [lia | discriminate].
Qed.

Lemma handles_nothing record w o w' new :
  w_console w' = w_console w ++ new ->
  handled_files new = [] ->
  w_requests w' = w_requests w ->
  handles_first_two record w (o, w').
Proof.
  intros Hcon Hls Hreq. exists new. cbn [snd]. rewrite Hls, Hreq. cbn [length].
  split; [exact Hcon | split; [lia | split; [lia | ] ] ].
  intros files _. exists []. split; [apply prefix_nil | constructor].
Qed.

Lemma handles_nothing_same record w o :
  handles_first_two record w (o, w).
Proof.
  apply (handles_nothing record w o w []);
    [rewrite app_nil_r | | ]; reflexivity.
Qed.

Ltac quiet :=
  first [ apply handles_nothing_same
        | eapply handles_nothing;
          [ cbn [w_console]; rewrite <- ?app_assoc; reflexivity
          | reflexivity | reflexivity ] ].

Lemma mirror_debug record w :
  handles_first_two record w (download_record_data record true w).
Proof.
  unfold download_record_data.
  destruct (py_index record (py "id")) as [record_id | e] eqn:Hid.
  2:{ use_eqs. quiet. }
  destruct (py_index record (py "metadata")) as [metadata | e] eqn:Hmd.
  2:{ use_eqs. quiet. }
  use_eqs.
  destruct (py_get metadata (py "title") (JStr (py "Unknown Title")))
    as [title | e] eqn:Htitle.
  2:{ use_eqs. quiet. }
  use_eqs.
  destruct (py_get record (py "files") (JArr [])) as [files | e] eqn:Hfiles.
  2:{ use_eqs. quiet. }
  use_eqs.
  destruct (py_len files) as [n | e] eqn:Hlen.
  2:{ use_eqs. quiet. }
  use_eqs.
  destruct (if 2 <? n then py_slice2 files else Ok files)
    as [files' | e] eqn:Hslice.
  2:{ destruct (2 <? n); [ | discriminate]. use_eqs. quiet. }
  assert (Hnext :
    forall w1 : world,
      w_console w1 = w_console w
                     ++ [OutProcessing record_id title (2 <? n)] ->
      w_requests w1 = w_requests w ->
      handles_first_two record w
        ((n' <- lift (py_len files') ;;
          print (OutFilesToDownload n') ;;
          if negb (truthy files') then print OutNoFiles
          else
            items <- lift (py_iter files') ;;
            success_count <- download_files items record_id title 0 ;;
            print (OutTally success_count n')) w1)).
  { intros w1 Hcon1 Hreq1.
    destruct (py_len files') as [n' | e] eqn:Hlen'.
    2:{ use_eqs. eapply handles_nothing; [exact Hcon1 | reflexivity | exact Hreq1]. }
    use_eqs.
    destruct (truthy files') eqn:Htruthy.
    2:{ use_eqs. eapply handles_nothing;
          [cbn [w_console]; rewrite Hcon1, <- !app_assoc; reflexivity
          | reflexivity | exact Hreq1]. }
    use_eqs.
    destruct (py_iter files') as [items | e] eqn:Hiter.
    2:{ use_eqs. eapply handles_nothing;
          [cbn [w_console]; rewrite Hcon1, <- !app_assoc; reflexivity
          | reflexivity | exact Hreq1]. }
    use_eqs.
    destruct (debug_items _ _ _ _ Hlen Hslice Hiter) as [Htwo Htake].
    match goal with
    | |- context [download_files items record_id title 0 ?W] =>
        destruct (download_files_trace items record_id title 0 W)
          as (o & w2 & new & done & Hrun & Hcon2 & Hpre & Hkeys & Hreq2 & Ho)
    end.
    rewrite Hrun. cbn [w_console w_requests] in Hcon2, Hreq2.
    rewrite Hcon1 in Hcon2. rewrite Hreq1 in Hreq2.
    pose proof (Forall2_length _ _ _ Hkeys) as Hsame.
    pose proof (prefix_length _ _ Hpre) as Hshort.
    assert (Hgoal : forall o' w3 tail,
              handled_files tail = [] ->
              w_console w3 = w_console w2 ++ tail ->
              w_requests w3 = w_requests w2 ->
              handles_first_two record w (o', w3)).
    { intros o' w3 tail Htail Hcon3 Hreq3.
      exists ([OutProcessing record_id title (2 <? n); OutFilesToDownload n']
              ++ new ++ tail).
      cbn [snd]. rewrite Hcon3, Hcon2, Hreq3.
      rewrite !handled_files_app, Htail, app_nil_r.
      change (handled_files [OutProcessing record_id title (2 <? n);
                             OutFilesToDownload n']) with (@nil json).
      cbn [app].
      split; [rewrite <- !app_assoc; reflexivity | ].
      split; [lia | split; [exact Hreq2 | ] ].
      intros xs Hxs. rewrite Hfiles in Hxs. apply Ok_inj in Hxs.
      exists done. rewrite <- (Htake _ Hxs). split; assumption. }
    destruct o as [count | e | c | ]; try contradiction.
    - eapply (Hgoal _ _ [OutTally count n']); reflexivity.
    - eapply (Hgoal _ _ []); [reflexivity | rewrite app_nil_r | ]; reflexivity. }
  destruct (2 <? n).
  - use_eqs. apply Hnext; reflexivity.
  - apply Ok_inj in Hslice. subst files'. run. apply Hnext; reflexivity.
Qed.

(** C4: in debug mode, against any service, [get_iodp_records] ends (given
    two iterations) with at most 2 records or with an exception, after at
    most 2 listing requests; and [download_record_data] handles at most 2
    files of any record, the first ones of its file list, with at most one
    request each. *)
Theorem debug_mode_limits (fuel : nat) (w : world) (record : json) :
  2 <= fuel ->
  (exists o w',
     get_iodp_records fuel true w = (o, w')
     /\ match o with
        | Val rs => length rs <= 2
        | Exc _ => True
        | _ => False
        end
     /\ length (w_requests w') <= length (w_requests w) + 2)
  /\ handles_first_two record w (download_record_data record true w).
Proof.
  intros Hfuel. split; [ | apply mirror_debug].
  unfold get_iodp_records. run.
  destruct (records_loop_debug fuel 1 []
              (World (w_fs w) (w_requests w)
                 (w_console w ++ [OutFetching true])))
    as (o & w' & Hrun & Ho & Hreq); [cbn; lia | cbn; lia | ].
  exists o, w'. split; [exact Hrun | split; [exact Ho | exact Hreq] ].
Qed.

End DebugMode.

(** Three records listed, three files attached: two of each in debug
    mode. *)
Lemma debug_mode_limits_example :
  2 <= 2
  /\ (exists o w',
        @get_iodp_records (serve three_records core_reply) 2 true fresh_world
        = (o, w')
        /\ match o with
           | Val rs => length rs <= 2
           | Exc _ => True
           | _ => False
           end
        /\ length (w_requests w') <= length (w_requests fresh_world) + 2)
     /\ handles_first_two (leg_record [core_file; core_file; core_file])
          fresh_world
          (@download_record_data ascii_runtime
             (serve three_records core_reply)
             (leg_record [core_file; core_file; core_file]) true fresh_world).
Proof.
  split; [lia | ].
  exact (@debug_mode_limits ascii_runtime (serve three_records core_reply)
           2 fresh_world (leg_record [core_file; core_file; core_file])
           ltac:(lia)).
Defined.

(** ** Mirroring a record twice *)

Section MirrorTwice.
Context `{RT : runtime} `{NET : remote}.




Lemma can_open_not_dir fs p :
  can_open fs p = true -> fs_lookup fs p <> Some NDir /\ snd p <> [].
Proof.
  unfold can_open. intros Hopen. split.
  - intros Hdir. rewrite Hdir in Hopen. discriminate.
  - intros Hnil. unfold fs_lookup in Hopen. rewrite Hnil in Hopen.
    discriminate.
Qed.

(** Where [fetch_result] leaves the file system. *)
Lemma fetch_result_fs tg w :
  w_fs (snd (fetch_result tg w)) = w_fs w
  \/ can_open (w_fs w) (t_path tg) = true
     /\ exists content,
          w_fs (snd (fetch_result tg w))
          = <[t_path tg := NFile content]> (w_fs w).
Proof.
  unfold fetch_result.
  destruct (already_there _ _ _); [left; reflexivity | ]. cbv zeta.
  destruct (download (t_url tg)) as [ | st chunks breaks];
    [left; reflexivity | ].
  destruct (http_error st); [left; reflexivity | ].
  cbn [w_fs add_request add_lines].
  destruct (can_open (w_fs w) (t_path tg)) eqn:Hopen; [ | left; reflexivity].
  right. split; [reflexivity | ]. exists (concat chunks).
  destruct breaks; reflexivity.
Qed.





Section OneRecord.
Variables record_id title : json.




End OneRecord.



End MirrorTwice.



(** ** The metadata exporter *)

Section Exporter.
Context `{RT : runtime} `{NET : remote}.






End Exporter.


(** ** The run as a whole *)

Section Run.
Context `{RT : runtime} `{NET : remote}.

(** The page loop leaves the file system alone and sends listing requests
    only, for consecutive pages. *)
Lemma records_loop_frame fuel :
  forall debug size page acc w o w',
    records_loop fuel debug size page acc w = (o, w') ->
    w_fs w' = w_fs w
    /\ exists k, w_requests w' = w_requests w ++ pages size page k.
Proof.
  induction fuel as [ | fuel IH]; intros debug size page acc w o w' Hrun.
  - cbn in Hrun. injection Hrun as <- <-. split; [reflexivity | ].
    exists 0. unfold pages. cbn. rewrite app_nil_r. reflexivity.
  - destruct (records_loop_step fuel debug size page acc w)
      as [(o1 & ls & Hstep & _) | (items & _ & _ & Hstep)];
      rewrite Hstep in Hrun.
    + injection Hrun as <- <-. split; [reflexivity | ]. exists 1. reflexivity.
    + destruct (IH _ _ _ _ _ _ _ Hrun) as [Hfs [k Hreq] ].
      split; [exact Hfs | ]. exists (S k). rewrite Hreq.
      unfold pages. cbn [add_lines add_request w_requests seq map].
      rewrite <- app_assoc. reflexivity.
Qed.

Lemma get_iodp_records_frame fuel debug w o w' :
  get_iodp_records fuel debug w = (o, w') ->
  w_fs w' = w_fs w
  /\ exists k,
       w_requests w'
       = w_requests w ++ pages (if debug then 2 else 50) 1 k.
Proof.
  unfold get_iodp_records. run. intros Hrun.
  exact (records_loop_frame _ _ _ _ _ _ _ _ Hrun).
Qed.

(** C7 (as amended): without an API key (unset or empty) the script prints
    its two messages and ends with [sys.exit(1)], having sent no request;
    when the enumeration finds no record, [main] prints a message and
    returns normally, so that the exit status is 0, with no metadata
    written and no file requested: the file system is as before the
    enumeration and only listing requests were sent. *)
Theorem startup_failures (fuel : nat) (args_debug DEBUG : bool)
    (key : option pystr) (w w1 w2 : world) :
  (key = None \/ key = Some [] ->
   mkdir_exist_ok data_dir w = (Val tt, w1) ->
   script fuel key args_debug DEBUG w
   = (Exit 1, add_lines [OutKeyNotSet; OutKeyHint] w1)
   /\ exit_status (@Exit unit 1) = Some 1%Z
   /\ w_requests w1 = w_requests w)
  /\ (get_iodp_records fuel (args_debug || DEBUG)
        (add_lines (OutBanner :: if args_debug || DEBUG
                                 then [OutDebugEnabled] else []) w)
      = (Val [], w2) ->
      main fuel args_debug DEBUG w = (Val tt, add_lines [OutNoRecords] w2)
      /\ exit_status (Val tt) = Some 0%Z
      /\ w_fs w2 = w_fs w
      /\ exists k,
           w_requests w2
           = w_requests w
             ++ pages (if args_debug || DEBUG then 2 else 50) 1 k).
Proof.
  split.
  - intros Hkey Hdir. unfold script, module_init.
    unfold bind at 1. unfold bind at 1. rewrite Hdir.
    rewrite mkdir_run in Hdir.
    destruct (made_dir (w_fs w) data_dir) as [fs' | ]; [ | discriminate].
    injection Hdir as <-.
    split; [ | split; reflexivity].
    destruct Hkey as [-> | ->]; run; rewrite <- app_assoc; reflexivity.
  - intros Hrun. unfold main.
    destruct (get_iodp_records_frame _ _ _ _ _ Hrun) as [Hfs Hreq].
    split; [ | split; [reflexivity | split; [exact Hfs | exact Hreq] ] ].
    destruct (args_debug || DEBUG); run;
      unfold add_lines in Hrun; cbn [app w_fs w_requests w_console] in Hrun;
      rewrite <- ?app_assoc; cbn [app]; rewrite Hrun; reflexivity.
Qed.

End Run.

(** No key: exit status 1.  No record: a normal return. *)
Lemma startup_failures_example :
  @mkdir_exist_ok ascii_runtime data_dir empty_world = (Val tt, fresh_world)
  /\ @script ascii_runtime empty_community 1 None false false empty_world
     = (Exit 1, add_lines [OutKeyNotSet; OutKeyHint] fresh_world)
  /\ @main ascii_runtime empty_community 1 false false fresh_world
     = (Val tt,
        add_lines [OutNoRecords]
          (snd (@get_iodp_records empty_community 1 false
                  (add_lines [OutBanner] fresh_world)))).
Proof.
  assert (Hdir : @mkdir_exist_ok ascii_runtime data_dir empty_world = (Val tt, fresh_world))
    by reflexivity.
  split; [exact Hdir | split].
  - exact (proj1 (proj1 (@startup_failures ascii_runtime empty_community
                           1 false false None empty_world fresh_world
                           fresh_world)
                    (or_introl eq_refl) Hdir)).
  - refine (proj1 (proj2 (@startup_failures ascii_runtime empty_community
                            1 false false None fresh_world fresh_world
                            (snd (@get_iodp_records empty_community 1 false
                                    (add_lines [OutBanner] fresh_world))))
                     _)).
    cbn [orb].
    rewrite (surjective_pairing
               (@get_iodp_records empty_community 1 false
                  (add_lines [OutBanner] fresh_world))) at 1.
    f_equal.
Defined.

(** C7 as stated fails for the second precondition: with a key and an
    empty community the script says so and ends with exit status 0. *)
Lemma no_records_exit_status :
  exit_status
    (fst (@script ascii_runtime empty_community 1 some_key false false
            empty_world))
  = Some 0%Z
  /\ last (w_console
             (snd (@script ascii_runtime empty_community 1 some_key false
                     false empty_world)))
     = Some OutNoRecords
  /\ w_requests
       (snd (@script ascii_runtime empty_community 1 some_key false false
               empty_world))
     = [GetRecords 1 50].
Proof. repeat split; vm_compute; reflexivity. Qed.

(** ** Which failures are caught *)

Section Failures.
Context `{RT : runtime} `{NET : remote}.


End Failures.


(** * Further properties *)

(** ** The enumerator against any service *)

Section EnumeratorAnyService.
Context `{NET : remote}.

(** X1: whatever the service answers, [get_iodp_records] leaves the file
    system as it is and sends nothing but listing requests, for the pages
    1, 2, 3, ... in this order, all with the page size of the mode (2 in
    debug mode, 50 otherwise). *)
Theorem enumerator_only_lists (fuel : nat) (debug : bool) (w : world) :
  w_fs (snd (get_iodp_records fuel debug w)) = w_fs w
  /\ exists k,
       w_requests (snd (get_iodp_records fuel debug w))
       = w_requests w ++ pages (if debug then 2 else 50) 1 k.
Proof.
  apply (get_iodp_records_frame fuel debug w
           (fst (get_iodp_records fuel debug w))).
  apply surjective_pairing.
Qed.




Lemma records_loop_bounded (T : nat) debug size :
  (forall page text data hits t,
     listing page size = ListingResponse 200 text (Some data) ->
     py_get data (py "hits") (JObj []) = Ok hits ->
     py_get hits (py "total") (JInt 0) = Ok (JInt t) ->
     (t <= Z.of_nat T)%Z) ->
  forall fuel page acc w,
    Nat.max 1 (T - length acc) <= fuel ->
    exists o w',
      records_loop fuel debug size page acc w = (o, w')
      /\ match o with
         | Val _ => True
         | Exc _ => True
         | _ => False
         end
      /\ length (w_requests w')
         <= length (w_requests w) + Nat.max 1 (T - length acc).
Proof.
  intros Hbound. induction fuel as [ | fuel IH]; intros page acc w Hfuel;
    [lia | ].
  destruct (records_loop_step fuel debug size page acc w)
    as [(o & ls & Hrun & Hstop) | (items & Hmove & Hne & Hrun)]; rewrite Hrun.
  - eexists _, _. split; [reflexivity | ]. split.
    + destruct o; try exact I; exact Hstop.
    + cbn [add_lines add_request w_requests]. rewrite length_app.
      cbn [length]. lia.
  - destruct Hmove as (text & data & hits & records & total
                       & Hpage & Hhits & _ & _ & _ & _ & Htotal & Hge).
    assert (Hlen : length (acc ++ items) < T).
    { destruct total as [ | b | t | | | ]; try discriminate.
      - cbn [py_int_ge] in Hge. apply Ok_inj in Hge.
        apply Z.leb_gt in Hge. rewrite length_app in Hge.
        destruct items; [congruence | ]. cbn [length] in Hge.
        destruct b; lia.
      - cbn [py_int_ge] in Hge. apply Ok_inj in Hge.
        apply Z.leb_gt in Hge.
        pose proof (Hbound _ _ _ _ _ Hpage Hhits Htotal). lia. }
    assert (Hgrow : length acc < length (acc ++ items)).
    { rewrite length_app. destruct items; [congruence | cbn [length]; lia]. }
    destruct (IH (S page) (acc ++ items)
                (add_lines [OutFetchedPage page (length (acc ++ items))]
                   (add_request (GetRecords page size) w)))
      as (o & w' & Hrun' & Ho & Hreq); [lia | ].
    exists o, w'. split; [exact Hrun' | split; [exact Ho | ] ].
    revert Hreq. cbn [add_lines add_request w_requests].
    rewrite length_app. cbn [length]. lia.
Qed.

(** X3: if every total the service reports is an integer of at most [T],
    [get_iodp_records] ends, with a result or an exception, after at most
    [max 1 T] listing requests. *)
Theorem enumerator_ends_when_total_bounded (T fuel : nat) (debug : bool)
    (w : world) :
  (forall page text data hits t,
     listing page (if debug then 2 else 50)
     = ListingResponse 200 text (Some data) ->
     py_get data (py "hits") (JObj []) = Ok hits ->
     py_get hits (py "total") (JInt 0) = Ok (JInt t) ->
     (t <= Z.of_nat T)%Z) ->
  Nat.max 1 T <= fuel ->
  exists o w',
    get_iodp_records fuel debug w = (o, w')
    /\ match o with
       | Val _ => True
       | Exc _ => True
       | _ => False
       end
    /\ length (w_requests w') <= length (w_requests w) + Nat.max 1 T.
Proof.
  intros Hbound Hfuel. unfold get_iodp_records. run.
  destruct (records_loop_bounded T debug _ Hbound fuel 1 []
              (World (w_fs w) (w_requests w)
                 (w_console w ++ [OutFetching debug])))
    as (o & w' & Hrun & Ho & Hreq); [cbn [length]; lia | ].
  exists o, w'. split; [exact Hrun | split; [exact Ho | ] ].
  revert Hreq. cbn [length w_requests]. lia.
Qed.

Lemma records_loop_endless size :
  (forall page acc,
     reaches false size page acc ->
     exists items, moves_on false size page acc items) ->
  forall fuel page acc w,
    reaches false size page acc ->
    fst (records_loop fuel false size page acc w) = Diverged
    /\ w_requests (snd (records_loop fuel false size page acc w))
       = w_requests w ++ pages size page fuel.
Proof.
  intros Hmore. induction fuel as [ | fuel IH]; intros page acc w Hreach.
  - cbn. unfold pages. cbn. rewrite app_nil_r. split; reflexivity.
  - destruct (Hmore _ _ Hreach) as [items Hmove].
    rewrite (records_loop_moves_on _ _ _ _ _ _ _ Hmove).
    destruct (IH (S page) (acc ++ items)
                (add_lines [OutFetchedPage page (length (acc ++ items))]
                   (add_request (GetRecords page size) w))
                (reaches_next _ _ _ _ _ Hreach Hmove)) as [Hout Hreq].
    split; [exact Hout | ]. rewrite Hreq.
    unfold pages. cbn [add_lines add_request w_requests seq map].
    rewrite <- app_assoc. reflexivity.
Qed.

(** X4: the page loop has no cap of its own: against a service that, at
    every page the loop can reach, delivers records and reports a total
    above what the loop then holds, [get_iodp_records] outside debug mode
    is still running after any number of iterations, having requested as
    many pages. *)
Theorem enumerator_has_no_page_cap (fuel : nat) (w : world) :
  (forall page acc,
     reaches false 50 page acc ->
     exists items, moves_on false 50 page acc items) ->
  fst (get_iodp_records fuel false w) = Diverged
  /\ w_requests (snd (get_iodp_records fuel false w))
     = w_requests w ++ pages 50 1 fuel.
Proof.
  intros Hmore. unfold get_iodp_records. run.
  exact (records_loop_endless 50 Hmore fuel 1 []
           (World (w_fs w) (w_requests w)
              (w_console w ++ [OutFetching false]))
           (reaches_first false 50)).
Qed.

End EnumeratorAnyService.

(** Three records: at most three requests. *)
Lemma enumerator_ends_when_total_bounded_example :
  Nat.max 1 3 <= 3
  /\ exists o w',
       @get_iodp_records (serve three_records no_files) 3 false empty_world
       = (o, w')
       /\ match o with
          | Val _ => True
          | Exc _ => True
          | _ => False
          end
       /\ length (w_requests w') <= length (w_requests empty_world)
                                    + Nat.max 1 3.
Proof.
  split; [cbn; lia | ].
  refine (@enumerator_ends_when_total_bounded (serve three_records no_files)
            3 3 false empty_world _ ltac:(cbn; lia)).
  intros page text data hits t Hpage Hhits Htotal.
  cbn [listing serve] in Hpage. injection Hpage as _ <-.
  rewrite body_hits in Hhits. apply Ok_inj in Hhits. subst hits.
  rewrite hits_total in Htotal. apply Ok_inj in Htotal.
  injection Htotal as <-. cbn. lia.
Defined.

Lemma endless_reaches page acc :
  @reaches endless false 50 page acc -> S (length acc) = page.
Proof.
  induction 1 as [ | page acc items _ IH Hmove]; [reflexivity | ].
  destruct Hmove as (text & data & hits & records & total
                     & Hpage & Hhits & Hrecords & _ & Hitems & _).
  cbn [listing endless] in Hpage. injection Hpage as _ <-.
  rewrite body_hits in Hhits. apply Ok_inj in Hhits. subst hits.
  rewrite hits_hits in Hrecords. apply Ok_inj in Hrecords. subst records.
  cbn [py_iter] in Hitems. apply Ok_inj in Hitems. subst items.
  rewrite length_app. cbn [length]. lia.
Qed.

Lemma endless_moves_on page acc :
  @reaches endless false 50 page acc ->
  exists items, @moves_on endless false 50 page acc items.
Proof.
  intros Hreach. apply endless_reaches in Hreach.
  exists [JInt (Z.of_nat page)].
  exists [], (listing_body [JInt (Z.of_nat page)] (Z.of_nat page + 1)),
    (JObj [(py "hits", JArr [JInt (Z.of_nat page)]);
           (py "total", JInt (Z.of_nat page + 1))]),
    (JArr [JInt (Z.of_nat page)]), (JInt (Z.of_nat page + 1)).
  repeat split; try reflexivity.
  cbn [py_int_ge]. f_equal. apply Z.leb_gt.
  rewrite length_app. cbn [length]. lia.
Qed.

(** Seven iterations against the endless service: seven pages requested,
    no result yet. *)
Lemma enumerator_has_no_page_cap_example :
  fst (@get_iodp_records endless 7 false empty_world) = Diverged
  /\ w_requests (snd (@get_iodp_records endless 7 false empty_world))
     = pages 50 1 7.
Proof.
  exact (@enumerator_has_no_page_cap endless 7 empty_world
           endless_moves_on).
Defined.

(** ** Downloads that do not succeed *)

Section FailedDownloads.
Context `{RT : runtime} `{NET : remote}.

(** X5: when the download request raises or is answered with a 4xx or 5xx
    status, [download_file] returns [False] and the file system is exactly
    as its two [mkdir] calls left it: a local copy of another size is
    kept as it is. *)
Theorem failed_request_keeps_files
    (file_info record_id record_title : json) (tg : target) (w w1 : world) :
  file_target file_info record_id record_title = Ok tg ->
  make_dirs tg w = (Val tt, w1) ->
  already_there (w_fs w1) (t_path tg) (t_size tg) = false ->
  (download (t_url tg) = FileRaises
   \/ exists status_code chunks breaks,
        download (t_url tg) = FileResponse status_code chunks breaks
        /\ http_error status_code = true) ->
  exists w',
    download_file file_info record_id record_title w = (Val false, w')
    /\ w_fs w' = w_fs w1
    /\ w_requests w' = w_requests w ++ [GetFile (t_url tg)].
Proof.
  intros Htg Hdirs Hthere Hfail.
  destruct (make_dirs_ok _ _ _ Hdirs) as (Hreq & _).
  rewrite (download_file_run _ _ _ _ _ _ Htg Hdirs).
  unfold fetch_result. rewrite Hthere. cbv zeta.
  destruct Hfail as [-> | (st & chunks & breaks & -> & ->)];
    (eexists; split; [reflexivity | ];
     cbn [snd add_lines add_request w_fs w_requests]; rewrite Hreq;
     split; reflexivity).
Qed.

(** X6: when the response is accepted and the file can be opened but the
    stream breaks after some chunks, [download_file] returns [False] and
    leaves at the target path exactly the chunks received: the previous
    content is gone and the partial file is not removed. *)
Theorem broken_stream_leaves_partial_file
    (file_info record_id record_title : json) (tg : target) (w w1 : world)
    (status_code : Z) (chunks : list (list Byte.byte)) :
  file_target file_info record_id record_title = Ok tg ->
  make_dirs tg w = (Val tt, w1) ->
  already_there (w_fs w1) (t_path tg) (t_size tg) = false ->
  download (t_url tg) = FileResponse status_code chunks true ->
  http_error status_code = false ->
  can_open (w_fs w1) (t_path tg) = true ->
  exists w',
    download_file file_info record_id record_title w = (Val false, w')
    /\ fs_lookup (w_fs w') (t_path tg) = Some (NFile (concat chunks))
    /\ last (w_console w')
       = Some (OutErrorDownloading (t_filename tg) RequestException).
Proof.
  intros Htg Hdirs Hthere Hdl Hst Hopen.
  rewrite (download_file_run _ _ _ _ _ _ Htg Hdirs).
  unfold fetch_result. rewrite Hthere. cbv zeta. rewrite Hdl, Hst.
  cbn [w_fs add_request add_lines]. rewrite Hopen.
  eexists. split; [reflexivity | ].
  cbn [snd add_lines add_request with_fs w_fs w_console]. split.
  - apply fs_lookup_insert_eq. apply (can_open_not_dir _ _ Hopen).
  - apply last_snoc.
Qed.

End FailedDownloads.

(** The service cannot be reached: the one-byte copy stays. *)
Lemma failed_request_keeps_files_example :
  exists w',
    @download_file ascii_runtime unreachable core_file (JInt 7) leg_title
      (mirror_with [Byte.x61])
    = (Val false, w')
    /\ w_fs w' = w_fs (mirror_with [Byte.x61])
    /\ w_requests w' = [GetFile core_url].
Proof.
  refine (@failed_request_keeps_files ascii_runtime unreachable core_file
            (JInt 7) leg_title (core_target (JInt 3))
            (mirror_with [Byte.x61]) (mirror_with [Byte.x61]) _ _ _ _).
  - vm_compute. reflexivity.
  - apply make_dirs_again; vm_compute; reflexivity.
  - vm_compute. reflexivity.
  - left. reflexivity.
Defined.

(** Two of three bytes arrive: they replace the old copy. *)
Lemma broken_stream_leaves_partial_file_example :
  exists w',
    @download_file ascii_runtime breaking core_file (JInt 7) leg_title
      (mirror_with [Byte.x61])
    = (Val false, w')
    /\ fs_lookup (w_fs w') core_path = Some (NFile [Byte.x61; Byte.x62])
    /\ last (w_console w')
       = Some (OutErrorDownloading (JStr (py "core.csv")) RequestException).
Proof.
  refine (@broken_stream_leaves_partial_file ascii_runtime breaking core_file
            (JInt 7) leg_title (core_target (JInt 3))
            (mirror_with [Byte.x61]) (mirror_with [Byte.x61])
            200%Z [[Byte.x61]; [Byte.x62]] _ _ _ _ _ _).
  - vm_compute. reflexivity.
  - apply make_dirs_again; vm_compute; reflexivity.
  - vm_compute. reflexivity.
  - reflexivity.
  - reflexivity.
  - vm_compute. reflexivity.
Defined.

(** ** Nothing is ever deleted *)

Lemma same_kind_refl n : same_kind n n.
Proof. destruct n; exact I. Qed.

Lemma keeps_refl fs : keeps fs fs.
Proof. intros q n Hq. exists n. split; [exact Hq | apply same_kind_refl]. Qed.

Lemma keeps_trans fs1 fs2 fs3 : keeps fs1 fs2 -> keeps fs2 fs3 -> keeps fs1 fs3.
Proof.
  intros H12 H23 q n Hq.
  destruct (H12 _ _ Hq) as (n2 & Hq2 & Hk2).
  destruct (H23 _ _ Hq2) as (n3 & Hq3 & Hk3).
  exists n3. split; [exact Hq3 | ].
  destruct n, n2, n3; try exact I; contradiction.
Qed.

Lemma keeps_insert_new fs p n :
  fs_lookup fs p = None -> keeps fs (<[p := n]> fs).
Proof.
  intros Hp q m Hq. exists m. split; [ | apply same_kind_refl].
  rewrite fs_lookup_insert_ne; [exact Hq | ]. intros ->. congruence.
Qed.

Lemma keeps_insert_file fs p old content :
  fs !! p = Some (NFile old) -> keeps fs (<[p := NFile content]> fs).
Proof.
  intros Hp q m Hq. destruct (decide (p = q)) as [<- | Hne].
  - unfold fs_lookup in Hq |- *. destruct (snd p) eqn:Hparts.
    + exists m. split; [exact Hq | apply same_kind_refl].
    + rewrite Hp in Hq. injection Hq as <-.
      exists (NFile content). split; [apply lookup_insert_eq | exact I].
  - exists m. split; [ | apply same_kind_refl].
    rewrite fs_lookup_insert_ne; [exact Hq | exact Hne].
Qed.

Lemma preserving_ret {A} (a : A) : preserving (ret a).
Proof. intros w. apply keeps_refl. Qed.

Lemma preserving_raise {A} e : preserving (@raise A e).
Proof. intros w. apply keeps_refl. Qed.

Lemma preserving_lift {A} (r : res A) : preserving (lift r).
Proof. destruct r; [apply preserving_ret | apply preserving_raise]. Qed.

Lemma preserving_print l : preserving (print l).
Proof. intros w. apply keeps_refl. Qed.

Lemma preserving_sent r : preserving (sent r).
Proof. intros w. apply keeps_refl. Qed.

Lemma preserving_sys_exit {A} c : preserving (@sys_exit A c).
Proof. intros w. apply keeps_refl. Qed.

Lemma preserving_diverge {A} : preserving (@diverge A).
Proof. intros w. apply keeps_refl. Qed.

Lemma preserving_bind {A B} (m : M A) (k : A -> M B) :
  preserving m -> (forall a, preserving (k a)) -> preserving (bind m k).
Proof.
  intros Hm Hk w. unfold bind. specialize (Hm w).
  destruct (m w) as [[a | e | c | ] w1]; cbn [snd] in Hm |- *;
    try exact Hm.
  exact (keeps_trans _ _ _ Hm (Hk a w1)).
Qed.

Lemma preserving_try {A} (body : M A) (handler : exn -> M A) :
  preserving body -> (forall e, preserving (handler e)) ->
  preserving (try_except body handler).
Proof.
  intros Hb Hh w. unfold try_except. specialize (Hb w).
  destruct (body w) as [[a | e | c | ] w1]; cbn [snd] in Hb |- *;
    try exact Hb.
  exact (keeps_trans _ _ _ Hb (Hh e w1)).
Qed.

Lemma preserving_mkdir `{RT : runtime} p : preserving (mkdir_exist_ok p).
Proof.
  intros w. rewrite mkdir_run. unfold made_dir.
  destruct (fs_lookup (w_fs w) p) as [[content | ] | ] eqn:Hp;
    cbn [snd with_fs w_fs]; try apply keeps_refl.
  destruct (fs_lookup (w_fs w) (path_parent p)) as [[content | ] | ];
    cbn [snd with_fs w_fs]; try apply keeps_refl.
  destruct (rt_path_ok p); cbn [snd with_fs w_fs]; try apply keeps_refl.
  apply keeps_insert_new. exact Hp.
Qed.

Lemma preserving_open_w p : preserving (open_w p).
Proof.
  intros w. rewrite open_w_run. unfold can_open.
  destruct (fs_lookup (w_fs w) p) as [[content | ] | ] eqn:Hp;
    cbn [snd with_fs w_fs]; try apply keeps_refl.
  - apply (keeps_insert_file _ _ content).
    unfold fs_lookup in Hp. destruct (snd p); [discriminate | exact Hp].
  - destruct (fs_lookup (w_fs w) (path_parent p)) as [[content | ] | ];
      cbn [snd with_fs w_fs]; try apply keeps_refl.
    apply keeps_insert_new. exact Hp.
Qed.

Lemma preserving_write p data : preserving (write p data).
Proof.
  intros w. unfold write. run.
  destruct (w_fs w !! p) as [[content | ] | ] eqn:Hp;
    cbn [snd w_fs]; try apply keeps_refl.
  apply (keeps_insert_file _ _ content). exact Hp.
Qed.

Lemma preserving_write_chunks p chunks breaks :
  preserving (write_chunks p chunks breaks).
Proof.
  induction chunks as [ | chunk rest IH]; cbn [write_chunks].
  - destruct breaks; [apply preserving_raise | apply preserving_ret].
  - apply preserving_bind; [ | intros _; exact IH].
    destruct chunk; [apply preserving_ret | apply preserving_write].
Qed.

Lemma preserving_get_fs_bind {A} (k : gmap path node -> M A) :
  (forall fs, preserving (k fs)) -> preserving (bind get_fs k).
Proof. intros Hk w. exact (Hk (w_fs w) w). Qed.

(** Take a computation apart along its binds and branches. *)
Ltac preserve :=
  repeat (cbv beta;
          match goal with
          | |- preserving (ret _) => apply preserving_ret
          | |- preserving (raise _) => apply preserving_raise
          | |- preserving (lift _) => apply preserving_lift
          | |- preserving (print _) => apply preserving_print
          | |- preserving (sent _) => apply preserving_sent
          | |- preserving (sys_exit _) => apply preserving_sys_exit
          | |- preserving diverge => apply preserving_diverge
          | |- preserving (mkdir_exist_ok _) => apply preserving_mkdir
          | |- preserving (open_w _) => apply preserving_open_w
          | |- preserving (write _ _) => apply preserving_write
          | |- preserving (write_chunks _ _ _) =>
              apply preserving_write_chunks
          | |- preserving (bind get_fs _) =>
              apply preserving_get_fs_bind; intros ?
          | |- preserving (bind _ _) => apply preserving_bind; [ | intros ? ]
          | |- preserving (try_except _ _) =>
              apply preserving_try; [ | intros ? ]
          | |- preserving (if ?b then _ else _) => destruct b
          | |- preserving (match ?x with _ => _ end) => destruct x
          end).

Section NeverDeletes.
Context `{RT : runtime} `{NET : remote}.

Lemma preserving_records_loop fuel :
  forall debug size page acc,
    preserving (records_loop fuel debug size page acc).
Proof.
  induction fuel as [ | fuel IH]; intros debug size page acc;
    cbn [records_loop]; [apply preserving_diverge | ].
  unfold get_records_page, response_json, after_loop.
  preserve. apply IH.
Qed.

Lemma preserving_download_file file_info record_id record_title :
  preserving (download_file file_info record_id record_title).
Proof. unfold download_file, get_file. preserve. Qed.

Lemma preserving_download_files files record_id title :
  forall success_count,
    preserving (download_files files record_id title success_count).
Proof.
  induction files as [ | file_info rest IH]; intros success_count;
    cbn [download_files]; [apply preserving_ret | ].
  apply preserving_bind; [apply preserving_download_file | ].
  intros ok. apply IH.
Qed.

Lemma preserving_download_record_data record debug :
  preserving (download_record_data record debug).
Proof.
  unfold download_record_data. preserve;
    apply preserving_download_files.
Qed.

Lemma preserving_save_metadata records : preserving (save_metadata records).
Proof. unfold save_metadata. preserve. Qed.

Lemma preserving_download_all records debug :
  forall i n, preserving (download_all records i n debug).
Proof.
  induction records as [ | record rest IH]; intros i n; cbn [download_all];
    [apply preserving_ret | ].
  preserve; [apply preserving_download_record_data | apply IH].
Qed.

(** X7: the script never deletes anything and never turns a directory into
    a file or a file into a directory: however the run ends, every entry
    that was on disk before is still there afterwards, of the same kind. *)
Theorem script_never_deletes (fuel : nat) (key : option pystr)
    (args_debug DEBUG : bool) (w : world) (q : path) (n : node) :
  fs_lookup (w_fs w) q = Some n ->
  exists n',
    fs_lookup (w_fs (snd (script fuel key args_debug DEBUG w))) q = Some n'
    /\ same_kind n n'.
Proof.
  revert q n. change (keeps (w_fs w)
                        (w_fs (snd (script fuel key args_debug DEBUG w)))).
  revert w. change (preserving (script fuel key args_debug DEBUG)).
  unfold script, module_init, main, get_iodp_records.
  preserve;
    first [ apply preserving_records_loop
          | apply preserving_save_metadata
          | apply preserving_download_all ].
Qed.

End NeverDeletes.

(** A stale copy in the mirror is still a regular file after a full run. *)
Lemma script_never_deletes_example :
  fs_lookup (w_fs (mirror_with [Byte.x61])) core_path
  = Some (NFile [Byte.x61])
  /\ exists n',
       fs_lookup
         (w_fs (snd (@script ascii_runtime core_remote 3 some_key false false
                       (mirror_with [Byte.x61]))))
         core_path
       = Some n'
       /\ same_kind (NFile [Byte.x61]) n'.
Proof.
  assert (Hfile : fs_lookup (w_fs (mirror_with [Byte.x61])) core_path
                  = Some (NFile [Byte.x61])) by (vm_compute; reflexivity).
  split; [exact Hfile | ].
  exact (@script_never_deletes ascii_runtime core_remote 3 some_key false
           false (mirror_with [Byte.x61]) core_path (NFile [Byte.x61])
           Hfile).
Defined.

(** ** A record whose files are all handled *)

Section EveryFile.
Context `{RT : runtime} `{NET : remote}.


Lemma fetch_result_dir tg w d :
  fs_lookup (w_fs w) d = Some NDir ->
  fs_lookup (w_fs (snd (fetch_result tg w))) d = Some NDir.
Proof.
  intros Hd.
  destruct (fetch_result_fs tg w) as [-> | (Hopen & content & ->)];
    [exact Hd | ].
  destruct (can_open_not_dir _ _ Hopen) as [Hnd _].
  rewrite fs_lookup_insert_ne; [exact Hd | congruence].
Qed.

Lemma targets_share_dirs file_info file_info' record_id title tg tg' :
  file_target file_info record_id title = Ok tg ->
  file_target file_info' record_id title = Ok tg' ->
  t_record_dir tg' = t_record_dir tg /\ t_title_dir tg' = t_title_dir tg.
Proof.
  intros Htg Htg'.
  destruct (file_target_inv _ _ _ _ Htg)
    as (links & safe & _ & _ & _ & _ & Hsafe & Hrd & Htd & _).
  destruct (file_target_inv _ _ _ _ Htg')
    as (links' & safe' & _ & _ & _ & _ & Hsafe' & Hrd' & Htd' & _).
  rewrite Hsafe in Hsafe'. apply Ok_inj in Hsafe'. subst safe'.
  split; congruence.
Qed.




End EveryFile.


(** ** A malformed record *)

Lemma res_map_err {A B} (f : A -> res B) xs :
  Exists (fun x => exists e, f x = Err e) xs ->
  exists e, res_map f xs = Err e.
Proof.
  induction 1 as [x xs [e He] | x xs _ [e IH] ]; cbn [res_map].
  - exists e. rewrite He. reflexivity.
  - destruct (f x) as [y | e']; [ | exists e'; reflexivity].
    cbn [res_bind]. rewrite IH. exists e. reflexivity.
Qed.

Section Malformed.
Context `{RT : runtime} `{NET : remote}.

(** X9: if any of the records returned by the enumeration is not a dict
    with an [id] and a [metadata] dict (or has a file without a [key]),
    [save_metadata] raises before it opens the index, and [main] ends with
    that exception right after the enumeration: the old index is not
    touched and no file is requested. *)
Theorem malformed_record_aborts_run (fuel : nat) (args_debug DEBUG : bool)
    (records : list json) (w w2 : world) :
  get_iodp_records fuel (args_debug || DEBUG)
    (add_lines (OutBanner :: if args_debug || DEBUG
                             then [OutDebugEnabled] else []) w)
  = (Val records, w2) ->
  Exists (fun record => exists e, record_meta record = Err e) records ->
  exists e,
    save_metadata records w2 = (Exc e, w2)
    /\ main fuel args_debug DEBUG w = (Exc e, w2).
Proof.
  intros Hrun Hbad.
  destruct (res_map_err _ _ Hbad) as [e Hmeta].
  assert (Hsave : save_metadata records w2 = (Exc e, w2)).
  { unfold save_metadata. rewrite Hmeta. reflexivity. }
  exists e. split; [exact Hsave | ].
  assert (Hne : records <> []) by (intros ->; inversion Hbad).
  unfold main.
  destruct (args_debug || DEBUG); run;
    unfold add_lines in Hrun; cbn [app w_fs w_requests w_console] in Hrun;
    rewrite <- ?app_assoc; cbn [app]; rewrite Hrun;
    (destruct records as [ | record rest]; [congruence | ]);
    unfold bind; rewrite Hsave; reflexivity.
Qed.

End Malformed.

(** Records that are bare numbers: the run ends after the enumeration. *)
Lemma malformed_record_aborts_run_example :
  exists e,
    @save_metadata ascii_runtime three_records
      (snd (@get_iodp_records (serve three_records no_files) 1 false
              (add_lines [OutBanner] fresh_world)))
    = (Exc e,
       snd (@get_iodp_records (serve three_records no_files) 1 false
              (add_lines [OutBanner] fresh_world)))
    /\ @main ascii_runtime (serve three_records no_files) 1 false false
         fresh_world
       = (Exc e,
          snd (@get_iodp_records (serve three_records no_files) 1 false
                 (add_lines [OutBanner] fresh_world))).
Proof.
  refine (@malformed_record_aborts_run ascii_runtime
            (serve three_records no_files) 1 false false three_records
            fresh_world _ _ _).
  - cbn [orb].
    rewrite (surjective_pairing
               (@get_iodp_records (serve three_records no_files) 1 false
                  (add_lines [OutBanner] fresh_world))) at 1.
    f_equal.
  - constructor. exists TypeError. reflexivity.
Defined.

(** ** The sanitized title *)

Section SanitizeMore.
Context `{RT : runtime}.

Lemma filter_allowed_id (s : pystr) :
  Forall (fun c => allowed_char c = true) s ->
  filter (fun c => allowed_char c = true) s = s.
Proof.
  induction 1 as [ | c s Hc _ IH]; [reflexivity | ].
  rewrite filter_cons, decide_True by exact Hc. rewrite IH. reflexivity.
Qed.

Lemma rstrip_last (s : pystr) c :
  last (rstrip s) = Some c -> char_isspace c = false.
Proof.
  induction s as [ | a s IH]; cbn [rstrip]; [discriminate | ].
  destruct (rstrip s) as [ | b r] eqn:Hr.
  - destruct (char_isspace a) eqn:Ha; [discriminate | ].
    cbn. intros [= <-]. exact Ha.
  - intros Hlast. apply IH. rewrite <- Hlast. reflexivity.
Qed.

Lemma rstrip_idem (s : pystr) : rstrip (rstrip s) = rstrip s.
Proof.
  induction s as [ | a s IH]; [reflexivity | ]. cbn [rstrip].
  destruct (rstrip s) as [ | b r] eqn:Hr.
  - destruct (char_isspace a) eqn:Ha; [reflexivity | ].
    cbn [rstrip]. rewrite Ha. reflexivity.
  - cbn [rstrip] in IH |- *. rewrite IH. reflexivity.
Qed.

(** X10: the sanitized title never ends in whitespace, and sanitizing is
    stable: a title that is already a sanitized title is returned as it
    is, so that a directory name maps to itself. *)
Theorem safe_title_stable (title : pystr) :
  exists safe,
    safe_title (JStr title) = Ok safe
    /\ safe_title (JStr safe) = Ok safe
    /\ forall c, last safe = Some c -> char_isspace c = false.
Proof.
  exists (rstrip (filter (fun c => allowed_char c = true) title)).
  split; [apply safe_title_str | ]. split.
  - rewrite safe_title_str, filter_allowed_id, rstrip_idem; [reflexivity | ].
    apply rstrip_Forall. apply list.Forall_forall. intros c Hc.
    apply list_elem_of_filter in Hc. tauto.
  - intros c. apply rstrip_last.
Qed.

End SanitizeMore.

(** ** File names and target paths *)

Lemma split_slash_plain (s : pystr) :
  Forall (fun c => c <> 47%N) s -> split_slash s = [s].
Proof.
  induction 1 as [ | c s Hc _ IH]; [reflexivity | ].
  cbn [split_slash]. rewrite IH.
  destruct (N.eqb_spec c 47); [contradiction | reflexivity].
Qed.

(** Joining a single component that is not [.] appends it. *)
Lemma path_join_component (p : path) (s : pystr) :
  s <> [] -> s <> [46%N] -> Forall (fun c => c <> 47%N) s ->
  path_join p s = (fst p, snd p ++ [s]).
Proof.
  intros Hne Hdot Hslash.
  assert (Hparts : path_parts s = [s]).
  { unfold path_parts. rewrite (split_slash_plain _ Hslash).
    rewrite filter_cons, decide_True by (split; assumption). reflexivity. }
  unfold path_join. rewrite Hparts.
  destruct s as [ | c r]; [reflexivity | ].
  apply Forall_cons in Hslash. destruct Hslash as [Hc _].
  destruct c as [ | q]; [reflexivity | ].
  do 6 (destruct q as [q | q | ]; try reflexivity).
  all: contradiction.
Qed.

Lemma path_join_plain (p : path) (s : pystr) :
  plain_name s -> path_join p s = (fst p, snd p ++ [s]).
Proof.
  intros (Hne & Hdot & _ & Hchars).
  apply path_join_component; [exact Hne | exact Hdot | ].
  eapply Forall_impl; [exact Hchars | ].
  intros c Hc. apply Hc.
Qed.

Section Names.
Context `{RT : runtime} `{NET : remote}.

(** X11: a file whose key is a plain name (a single path component other
    than [.] and [..], without NUL or surrogates) and whose path the
    platform accepts has as its target path the title directory of its
    record extended by that name; two files of a record with different
    plain names never share a target path; and when nothing is at that
    path once the directories are made and the server answers with a
    complete body and no error status, [download_file] returns [True],
    leaves a regular file with exactly that body at that path, and
    changes no other path. *)
Theorem plain_names_have_own_paths
    (file_info1 file_info2 record_id title : json) (tg1 tg2 : target)
    (name1 name2 : pystr) :
  file_target file_info1 record_id title = Ok tg1 ->
  file_target file_info2 record_id title = Ok tg2 ->
  t_filename tg1 = JStr name1 ->
  t_filename tg2 = JStr name2 ->
  plain_name name1 ->
  plain_name name2 ->
  t_path tg1 = (fst (t_title_dir tg1), snd (t_title_dir tg1) ++ [name1])
  /\ (t_path tg1 = t_path tg2 -> name1 = name2)
  /\ forall (w w1 : world) (status_code : Z)
        (chunks : list (list Byte.byte)),
        make_dirs tg1 w = (Val tt, w1) ->
        fs_lookup (w_fs w1)
          (fst (t_title_dir tg1), snd (t_title_dir tg1) ++ [name1])
        = None ->
        download (t_url tg1) = FileResponse status_code chunks false ->
        http_error status_code = false ->
        exists w',
          download_file file_info1 record_id title w = (Val true, w')
          /\ fs_lookup (w_fs w')
               (fst (t_title_dir tg1), snd (t_title_dir tg1) ++ [name1])
             = Some (NFile (concat chunks))
          /\ forall q,
               q <> (fst (t_title_dir tg1),
                     snd (t_title_dir tg1) ++ [name1]) ->
               fs_lookup (w_fs w') q = fs_lookup (w_fs w1) q.
Proof.
  intros Htg1 Htg2 Hn1 Hn2 Hp1 Hp2.
  destruct (targets_share_dirs _ _ _ _ _ _ Htg1 Htg2) as [_ Htd].
  destruct (file_target_inv _ _ _ _ Htg1)
    as (l1 & s1 & _ & _ & _ & _ & _ & _ & _ & Hpath1).
  destruct (file_target_inv _ _ _ _ Htg2)
    as (l2 & s2 & _ & _ & _ & _ & _ & _ & _ & Hpath2).
  rewrite Hn1 in Hpath1. rewrite Hn2 in Hpath2.
  cbn [path_join_value] in Hpath1, Hpath2.
  apply Ok_inj in Hpath1. apply Ok_inj in Hpath2.
  rewrite (path_join_plain _ _ Hp1) in Hpath1.
  rewrite (path_join_plain _ _ Hp2) in Hpath2.
  split; [symmetry; exact Hpath1 | ].
  split.
  { rewrite <- Hpath1, <- Hpath2, Htd. intros Heq.
    injection Heq as Heq. apply app_inv_head in Heq. congruence. }
  intros w w1 status_code chunks Hdirs Hnone Hget Hstatus.
  destruct (make_dirs_ok _ _ _ Hdirs) as (_ & _ & _ & Hdir & _).
  rewrite (download_file_run _ _ _ _ _ _ Htg1 Hdirs).
  unfold fetch_result, already_there. rewrite <- Hpath1, Hnone, Hget, Hstatus.
  cbv zeta. cbn [add_request add_lines w_fs].
  assert (Hopen : can_open (w_fs w1)
                    (fst (t_title_dir tg1), snd (t_title_dir tg1) ++ [name1])
                  = true).
  { unfold can_open. rewrite Hnone. unfold path_parent. cbn [fst snd].
    rewrite removelast_last.
    destruct (t_title_dir tg1) as [anchored parts]. cbn [fst snd].
    rewrite Hdir. reflexivity. }
  rewrite Hopen. cbn [fst snd with_fs add_lines w_fs].
  eexists. split; [reflexivity | ]. split.
  - apply fs_lookup_insert_eq. cbn [snd]. intros Hnil.
    apply app_eq_nil in Hnil. destruct Hnil as [_ Hnil]. discriminate.
  - intros q Hq. apply fs_lookup_insert_ne. congruence.
Qed.

End Names.

Section Titles.
Context `{RT : runtime} `{NET : remote}.

(** X13: a record whose metadata has no [title] is mirrored under the
    directory name [Unknown Title]; but if a title is present and is not
    iterable ([null], a number, a boolean), [download_file] creates the
    record directory and then raises, outside its [try]. *)
Theorem title_missing_or_null
    (record file_info record_id title filename links url size : json)
    (debug : bool) (pl : plan) (kvs metadata : list (pystr * json))
    (w : world) (fs1 : gmap path node) (e : exn) :
  (record = JObj kvs ->
   dict_get kvs (py "metadata") = Some (JObj metadata) ->
   dict_get metadata (py "title") = None ->
   record_plan record debug = Ok pl ->
   pl_title pl = JStr (py "Unknown Title")
   /\ safe_title (pl_title pl) = Ok (py "Unknown Title"))
  /\ (py_index file_info (py "key") = Ok filename ->
      py_index file_info (py "links") = Ok links ->
      py_index links (py "self") = Ok url ->
      py_get file_info (py "size") (JInt 0) = Ok size ->
      made_dir (w_fs w)
        (path_join data_dir (py "record_" ++ py_str record_id))
      = Some fs1 ->
      py_iter title = Err e ->
      download_file file_info record_id title w = (Exc e, with_fs fs1 w)).
Proof.
  split.
  - intros -> Hmd Htitle Hpl. unfold record_plan in Hpl.
    cbn [py_index] in Hpl. rewrite Hmd in Hpl.
    destruct (dict_get kvs (py "id")) as [id | ]; [ | discriminate].
    cbn [res_bind py_get] in Hpl. rewrite Htitle in Hpl.
    cbn [res_bind default] in Hpl.
    destruct (if debug
              then (n <~ py_len (default (JArr []) (dict_get kvs (py "files"))) ;;
                    Ok (2 <? n))%res
              else Ok false) as [limit | ]; [ | discriminate].
    cbn [res_bind] in Hpl.
    destruct (if limit
              then py_slice2 (default (JArr []) (dict_get kvs (py "files")))
              else Ok (default (JArr []) (dict_get kvs (py "files"))))
      as [files' | ]; [ | discriminate].
    cbn [res_bind] in Hpl.
    destruct (py_len files') as [n | ]; [ | discriminate].
    cbn [res_bind] in Hpl.
    assert (Htit : pl_title pl = JStr (py "Unknown Title")).
    { destruct (truthy files').
      - destruct (py_iter files') as [items | ]; [ | discriminate].
        cbn [res_bind] in Hpl. apply Ok_inj in Hpl. subst pl. reflexivity.
      - apply Ok_inj in Hpl. subst pl. reflexivity. }
    split; [exact Htit | ]. rewrite Htit, safe_title_str.
    vm_compute. reflexivity.
  - intros Hkey Hlinks Hurl Hsize Hrd Hiter.
    assert (Hsafe : safe_title title = Err e).
    { unfold safe_title. rewrite Hiter. reflexivity. }
    unfold download_file. use_eqs. reflexivity.
Qed.

End Titles.

(** Two files of one record, [core.csv] and [notes.txt]; [core.csv] is
    fetched into a mirror that has only the [data] directory. *)
Lemma plain_names_have_own_paths_example :
  t_path (core_target (JInt 3))
  = (fst leg_title_dir, snd leg_title_dir ++ [py "core.csv"])
  /\ (t_path (core_target (JInt 3)) = t_path notes_target ->
      py "core.csv" = py "notes.txt")
  /\ exists w',
       @download_file ascii_runtime core_remote core_file (JInt 7) leg_title
         fresh_world
       = (Val true, w')
       /\ fs_lookup (w_fs w')
            (fst leg_title_dir, snd leg_title_dir ++ [py "core.csv"])
          = Some (NFile core_bytes)
       /\ forall q,
            q <> (fst leg_title_dir, snd leg_title_dir ++ [py "core.csv"]) ->
            fs_lookup (w_fs w') q
            = fs_lookup
                (w_fs (snd (@make_dirs ascii_runtime (core_target (JInt 3))
                              fresh_world))) q.
Proof.
  assert (Hplain : forall s, s = py "core.csv" \/ s = py "notes.txt" ->
                             plain_name s).
  { intros s [-> | ->];
      (split; [discriminate | split; [discriminate | split; [discriminate | ] ] ]);
      repeat (constructor;
              [split; [discriminate | split; [discriminate | left; reflexivity] ]
              | ]);
      constructor. }
  assert (Htg : @file_target ascii_runtime core_file (JInt 7) leg_title
                = Ok (core_target (JInt 3))) by (vm_compute; reflexivity).
  assert (Htg' : @file_target ascii_runtime notes_file (JInt 7) leg_title
                 = Ok notes_target) by (vm_compute; reflexivity).
  destruct (@plain_names_have_own_paths ascii_runtime core_remote
              core_file notes_file (JInt 7) leg_title
              (core_target (JInt 3)) notes_target
              (py "core.csv") (py "notes.txt") Htg Htg' eq_refl eq_refl
              (Hplain _ (or_introl eq_refl)) (Hplain _ (or_intror eq_refl)))
    as (Hpath & Hown & Hstore).
  split; [exact Hpath | ]. split; [exact Hown | ].
  refine (Hstore fresh_world
            (snd (@make_dirs ascii_runtime (core_target (JInt 3))
                    fresh_world))
            200%Z [[Byte.x61; Byte.x62]; []; [Byte.x63]] _ _ _ _).
  - rewrite (surjective_pairing
               (@make_dirs ascii_runtime (core_target (JInt 3))
                  fresh_world)) at 1.
    f_equal.
  - vm_compute. reflexivity.
  - vm_compute. reflexivity.
  - reflexivity.
Defined.

(** A record whose title is [null]: the record directory is made, then the
    call raises. *)
Lemma title_missing_or_null_example :
  @download_file ascii_runtime core_remote core_file (JInt 7) JNull
    fresh_world
  = (Exc TypeError,
     with_fs (<[leg_record_dir := NDir]> (w_fs fresh_world)) fresh_world).
Proof.
  refine (proj2 (@title_missing_or_null ascii_runtime core_remote
                   JNull core_file (JInt 7) JNull (JStr (py "core.csv"))
                   (JObj [(py "self", core_url)]) core_url (JInt 3)
                   false (Plan JNull JNull false 0 None) [] []
                   fresh_world
                   (<[leg_record_dir := NDir]> (w_fs fresh_world))
                   TypeError)
            eq_refl eq_refl eq_refl eq_refl _ eq_refl).
  unfold made_dir.
  assert (Hnew : fs_lookup (w_fs fresh_world)
                   (path_join data_dir
                      (py "record_" ++ @py_str ascii_runtime (JInt 7)))
                 = None) by (vm_compute; reflexivity).
  assert (Hparent : fs_lookup (w_fs fresh_world)
                      (path_parent
                         (path_join data_dir
                            (py "record_"
                             ++ @py_str ascii_runtime (JInt 7))))
                    = Some NDir) by (vm_compute; reflexivity).
  rewrite Hnew, Hparent. reflexivity.
Defined.

(** ** The debug switch *)

Section DebugSwitch.
Context `{CS : casing}.

Lemma ascii_lower_upper c : ascii_lower (ascii_upper c) = ascii_lower c.
Proof.
  unfold ascii_lower, ascii_upper.
  destruct (N.leb_spec 97 c), (N.leb_spec c 122); cbn [andb];
    repeat match goal with
    | |- context [(?a <=? ?b)%N] => destruct (N.leb_spec a b)
    end; cbn [andb]; lia.
Qed.

Lemma ascii_upper_ascii c : (c <? 128)%N = true ->
  (ascii_upper c <? 128)%N = true.
Proof.
  unfold ascii_upper. intros Hc. apply N.ltb_lt in Hc. apply N.ltb_lt.
  destruct (N.leb_spec 97 c), (N.leb_spec c 122); cbn [andb]; lia.
Qed.

Lemma str_lower_upper (v : pystr) :
  forallb (fun c => (c <? 128)%N) v = true ->
  str_lower (map ascii_upper v) = str_lower v.
Proof.
  intros Hascii. unfold str_lower. rewrite Hascii.
  assert (Hup : forallb (fun c => (c <? 128)%N) (map ascii_upper v) = true).
  { apply forallb_forall. intros c Hc. apply in_map_iff in Hc.
    destruct Hc as (c0 & <- & Hc0). apply ascii_upper_ascii.
    exact (proj1 (forallb_forall _ _) Hascii c0 Hc0). }
  rewrite Hup, map_map. apply map_ext. intros c. apply ascii_lower_upper.
Qed.

Lemma env_debug_some (v : pystr) :
  env_debug (Some v)
  = bool_decide (str_lower v = py "true")
    || bool_decide (str_lower v = py "1")
    || bool_decide (str_lower v = py "yes").
Proof. reflexivity. Qed.

(** X12: the environment switch is off when [DEBUG] is unset and, for an
    ASCII value, on exactly when the value is [true], [1] or [yes] in any
    mix of upper and lower case; and the command-line flag can only switch
    debug mode on, never off. *)
Theorem debug_switch_ignores_case (v : pystr) (args_debug : bool) :
  env_debug None = false
  /\ (forallb (fun c => (c <? 128)%N) v = true ->
      env_debug (Some (map ascii_upper v)) = env_debug (Some v)
      /\ (env_debug (Some v) = true
          <-> map ascii_lower v = py "true"
              \/ map ascii_lower v = py "1"
              \/ map ascii_lower v = py "yes"))
  /\ (env_debug (Some v) = true -> debug_mode args_debug (Some v) = true).
Proof.
  split; [vm_compute; reflexivity | split].
  - intros Hascii. split.
    + rewrite !env_debug_some, (str_lower_upper _ Hascii). reflexivity.
    + rewrite env_debug_some. unfold str_lower. rewrite Hascii.
      rewrite !orb_true_iff, !bool_decide_eq_true. tauto.
  - intros Hon. unfold debug_mode. rewrite Hon. apply orb_true_r.
Qed.

End DebugSwitch.

(** [DEBUG=Yes] switches debug mode on; so does [DEBUG=YES]. *)
Lemma debug_switch_ignores_case_example :
  @env_debug ascii_casing (Some (py "Yes")) = true
  /\ @env_debug ascii_casing (Some (map ascii_upper (py "Yes"))) = true
  /\ @debug_mode ascii_casing false (Some (py "Yes")) = true.
Proof.
  destruct (@debug_switch_ignores_case ascii_casing (py "Yes") false)
    as (_ & Hcase & Hflag).
  destruct (Hcase eq_refl) as [Hupper Hiff].
  assert (Hon : @env_debug ascii_casing (Some (py "Yes")) = true)
    by (apply Hiff; right; right; reflexivity).
  split; [exact Hon | split; [ | exact (Hflag Hon)] ].
  rewrite Hupper. exact Hon.
Defined.

(** ** The name of the title directory *)

Section DirName.
Context `{RT : runtime} `{NET : remote}.

(** C8 (as amended): for every file of a record whose title is a string,
    the title directory that [download_file] computes, and has made
    whenever it returns, is the record directory extended by a name that is
    the title with every character other than alphanumerics, spaces,
    hyphens and underscores stripped, then trailing whitespace removed,
    then truncated to 100 characters; the name contains only such
    characters and has at most 100 of them. *)
Theorem dir_name_sanitized
    (file_info record_id : json) (title : pystr) (tg : target) :
  file_target file_info record_id (JStr title) = Ok tg ->
  exists name,
    name = take 100 (rstrip (filter (fun c => allowed_char c = true) title))
    /\ t_record_dir tg
       = path_join data_dir (py "record_" ++ py_str record_id)
    /\ t_title_dir tg = path_join (t_record_dir tg) name
    /\ (name <> [] ->
        t_title_dir tg
        = (fst (t_record_dir tg), snd (t_record_dir tg) ++ [name]))
    /\ Forall (fun c => allowed_char c = true) name
    /\ length name <= 100
    /\ forall (w : world) (ok : bool) (w' : world),
         download_file file_info record_id (JStr title) w = (Val ok, w') ->
         fs_lookup (w_fs w') (t_title_dir tg) = Some NDir.
Proof.
  intros Htg.
  destruct (file_target_inv _ _ _ _ Htg)
    as (links & safe & _ & _ & _ & _ & Hsafe & Hrd & Htd & _).
  rewrite safe_title_str in Hsafe. apply Ok_inj in Hsafe. subst safe.
  eexists. split; [reflexivity | ].
  assert (Hall : Forall (fun c => allowed_char c = true)
                   (take 100
                      (rstrip (filter (fun c => allowed_char c = true)
                                 title)))).
  { apply Forall_take, rstrip_Forall.
    apply list.Forall_forall. intros c Hc.
    apply list_elem_of_filter in Hc. tauto. }
  split; [exact Hrd | ]. split; [exact Htd | ].
  split; [ | split; [exact Hall | split] ].
  - intros Hne. rewrite Htd. apply path_join_component; [exact Hne | | ].
    + intros Heq. rewrite Heq in Hall. apply Forall_cons in Hall.
      destruct Hall as [Hc _]. apply allowed_char_plain in Hc. tauto.
    + eapply Forall_impl; [exact Hall | ].
      intros c Hc. apply allowed_char_plain in Hc. tauto.
  - rewrite length_take. lia.
  - intros w ok w' Hrun.
    destruct (download_file_cases file_info record_id (JStr title) w)
      as [(tg' & w1 & Htg' & Hdirs) | (e & fs' & Hexc)].
    + assert (tg' = tg) by congruence. subst tg'.
      rewrite (download_file_run _ _ _ _ _ _ Htg Hdirs) in Hrun.
      injection Hrun as _ <-.
      apply fetch_result_dir.
      destruct (make_dirs_ok _ _ _ Hdirs) as (_ & _ & _ & Hdir & _).
      exact Hdir.
    + rewrite Hexc in Hrun. discriminate.
Qed.

End DirName.

(** The title [Leg 1: cores_A ] gives the directory [Leg 1 cores_A]. *)
Lemma dir_name_sanitized_example :
  @file_target ascii_runtime core_file (JInt 7) leg_title
  = Ok (core_target (JInt 3))
  /\ exists name,
       name = py "Leg 1 cores_A"
       /\ t_title_dir (core_target (JInt 3))
          = (false, [py "data"; py "record_7"; name])
       /\ Forall (fun c => @allowed_char ascii_runtime c = true) name
       /\ length name <= 100
       /\ fs_lookup
            (w_fs (snd (@download_file ascii_runtime core_remote core_file
                          (JInt 7) leg_title fresh_world)))
            (t_title_dir (core_target (JInt 3)))
          = Some NDir.
Proof.
  assert (Htg : @file_target ascii_runtime core_file (JInt 7) leg_title
                = Ok (core_target (JInt 3))) by (vm_compute; reflexivity).
  split; [exact Htg | ].
  destruct (@dir_name_sanitized ascii_runtime core_remote core_file (JInt 7)
              (py "Leg 1: cores_A ") (core_target (JInt 3)) Htg)
    as (name & Hname & _ & _ & Hdir & Hall & Hlen & Hmade).
  assert (Hname' : name = py "Leg 1 cores_A")
    by (rewrite Hname; vm_compute; reflexivity).
  exists name. split; [exact Hname' | ].
  split.
  { rewrite Hdir; [reflexivity | ]. rewrite Hname'. discriminate. }
  split; [exact Hall | ]. split; [exact Hlen | ].
  assert (Hok : fst (@download_file ascii_runtime core_remote core_file
                        (JInt 7) leg_title fresh_world)
                = Val true) by (vm_compute; reflexivity).
  assert (Hrun : @download_file ascii_runtime core_remote core_file
                    (JInt 7) leg_title fresh_world
                  = (Val true,
                     snd (@download_file ascii_runtime core_remote core_file
                            (JInt 7) leg_title fresh_world))).
  { rewrite (surjective_pairing
               (@download_file ascii_runtime core_remote core_file (JInt 7)
                  leg_title fresh_world)) at 1.
    rewrite Hok. reflexivity. }
  exact (Hmade fresh_world true _ Hrun).
Defined.

(** ** The order of the requests *)

Lemma sent_files_refl w : sent_files w w.
Proof. exists []. cbn. rewrite app_nil_r. reflexivity. Qed.

Lemma sent_files_trans w1 w2 w3 :
  sent_files w1 w2 -> sent_files w2 w3 -> sent_files w1 w3.
Proof.
  intros [u1 H1] [u2 H2]. exists (u1 ++ u2).
  rewrite H2, H1, map_app, app_assoc. reflexivity.
Qed.

Lemma sent_files_same w w' : w_requests w' = w_requests w -> sent_files w w'.
Proof. intros H. exists []. cbn. rewrite app_nil_r. exact H. Qed.

Lemma fetching_ret {A} (a : A) : fetching (ret a).
Proof. intros w. apply sent_files_refl. Qed.

Lemma fetching_raise {A} e : fetching (@raise A e).
Proof. intros w. apply sent_files_refl. Qed.

Lemma fetching_lift {A} (r : res A) : fetching (lift r).
Proof. destruct r; [apply fetching_ret | apply fetching_raise]. Qed.

Lemma fetching_print l : fetching (print l).
Proof. intros w. apply sent_files_same. reflexivity. Qed.

Lemma fetching_sent_file url : fetching (sent (GetFile url)).
Proof. intros w. exists [url]. reflexivity. Qed.

Lemma fetching_bind {A B} (m : M A) (k : A -> M B) :
  fetching m -> (forall a, fetching (k a)) -> fetching (bind m k).
Proof.
  intros Hm Hk w. unfold bind. specialize (Hm w).
  destruct (m w) as [[a | e | c | ] w1]; cbn [snd] in Hm |- *;
    try exact Hm.
  exact (sent_files_trans _ _ _ Hm (Hk a w1)).
Qed.

Lemma fetching_try {A} (body : M A) (handler : exn -> M A) :
  fetching body -> (forall e, fetching (handler e)) ->
  fetching (try_except body handler).
Proof.
  intros Hb Hh w. unfold try_except. specialize (Hb w).
  destruct (body w) as [[a | e | c | ] w1]; cbn [snd] in Hb |- *;
    try exact Hb.
  exact (sent_files_trans _ _ _ Hb (Hh e w1)).
Qed.

Lemma fetching_mkdir `{RT : runtime} p : fetching (mkdir_exist_ok p).
Proof.
  intros w. rewrite mkdir_run. apply sent_files_same.
  destruct (made_dir (w_fs w) p); reflexivity.
Qed.

Lemma fetching_open_w p : fetching (open_w p).
Proof.
  intros w. rewrite open_w_run. apply sent_files_same.
  destruct (can_open (w_fs w) p); reflexivity.
Qed.

Lemma fetching_write p data : fetching (write p data).
Proof.
  intros w. unfold write. run. apply sent_files_same.
  destruct (w_fs w !! p) as [[content | ] | ]; reflexivity.
Qed.

Lemma fetching_write_chunks p chunks breaks :
  fetching (write_chunks p chunks breaks).
Proof.
  induction chunks as [ | chunk rest IH]; cbn [write_chunks].
  - destruct breaks; [apply fetching_raise | apply fetching_ret].
  - apply fetching_bind; [ | intros _; exact IH].
    destruct chunk; [apply fetching_ret | apply fetching_write].
Qed.

Lemma fetching_get_fs_bind {A} (k : gmap path node -> M A) :
  (forall fs, fetching (k fs)) -> fetching (bind get_fs k).
Proof. intros Hk w. exact (Hk (w_fs w) w). Qed.

Ltac fetch :=
  repeat (cbv beta;
          match goal with
          | |- fetching (ret _) => apply fetching_ret
          | |- fetching (raise _) => apply fetching_raise
          | |- fetching (lift _) => apply fetching_lift
          | |- fetching (print _) => apply fetching_print
          | |- fetching (sent (GetFile _)) => apply fetching_sent_file
          | |- fetching (mkdir_exist_ok _) => apply fetching_mkdir
          | |- fetching (open_w _) => apply fetching_open_w
          | |- fetching (write _ _) => apply fetching_write
          | |- fetching (write_chunks _ _ _) => apply fetching_write_chunks
          | |- fetching (bind get_fs _) =>
              apply fetching_get_fs_bind; intros ?
          | |- fetching (bind _ _) => apply fetching_bind; [ | intros ? ]
          | |- fetching (try_except _ _) =>
              apply fetching_try; [ | intros ? ]
          | |- fetching (if ?b then _ else _) => destruct b
          | |- fetching (match ?x with _ => _ end) => destruct x
          end).

Section RequestOrder.
Context `{RT : runtime} `{NET : remote}.

Lemma fetching_download_file file_info record_id record_title :
  fetching (download_file file_info record_id record_title).
Proof. unfold download_file, get_file. fetch. Qed.

Lemma fetching_download_files files record_id title :
  forall success_count,
    fetching (download_files files record_id title success_count).
Proof.
  induction files as [ | file_info rest IH]; intros success_count;
    cbn [download_files]; [apply fetching_ret | ].
  apply fetching_bind; [apply fetching_download_file | ].
  intros ok. apply IH.
Qed.

Lemma fetching_download_record_data record debug :
  fetching (download_record_data record debug).
Proof.
  unfold download_record_data. fetch; apply fetching_download_files.
Qed.

Lemma fetching_save_metadata records : fetching (save_metadata records).
Proof. unfold save_metadata. fetch. Qed.

Lemma fetching_download_all records debug :
  forall i n, fetching (download_all records i n debug).
Proof.
  induction records as [ | record rest IH]; intros i n; cbn [download_all];
    [apply fetching_ret | ].
  fetch; [apply fetching_download_record_data | apply IH].
Qed.

(** X14: in every run of the script, however it ends, the requests sent
    are listing requests for the pages 1, 2, 3, ... followed by requests
    for files: no file is requested before the enumeration is over, no
    page is requested afterwards, and nothing else is ever sent. *)
Theorem script_lists_then_fetches (fuel : nat) (key : option pystr)
    (args_debug DEBUG : bool) (w : world) :
  exists k urls,
    w_requests (snd (script fuel key args_debug DEBUG w))
    = w_requests w
      ++ pages (if args_debug || DEBUG then 2 else 50) 1 k
      ++ map GetFile urls.
Proof.
  assert (Hnone : forall w0 : world,
            exists k urls,
              w_requests w0
              = w_requests w0
                ++ pages (if args_debug || DEBUG then 2 else 50) 1 k
                ++ map GetFile urls).
  { intros w0. exists 0, []. cbn. rewrite app_nil_r. reflexivity. }
  unfold script, module_init. unfold bind at 1. unfold bind at 1.
  rewrite mkdir_run.
  destruct (made_dir (w_fs w) data_dir) as [fs' | ]; [ | apply Hnone].
  assert (Hmain : forall w0 : world,
            w_requests w0 = w_requests w ->
            exists k urls,
              w_requests (snd (main fuel args_debug DEBUG w0))
              = w_requests w
                ++ pages (if args_debug || DEBUG then 2 else 50) 1 k
                ++ map GetFile urls).
  { intros w0 Hw0. unfold main.
    set (banner := print OutBanner ;;
                   (if args_debug || DEBUG then print OutDebugEnabled
                    else ret tt)).
    assert (Hbanner : exists w1, (banner ;; ret tt) w0 = (Val tt, w1)
                                 /\ w_requests w1 = w_requests w0).
    { unfold banner. destruct (args_debug || DEBUG); eexists;
        split; reflexivity. }
    destruct Hbanner as (w1 & Hb & Hreq1).
    assert (Hrest : forall (k : unit -> M unit),
              (print OutBanner ;;
               (if args_debug || DEBUG then print OutDebugEnabled
                else ret tt) ;; k tt) w0 = k tt w1).
    { intros k. unfold banner in Hb. revert Hb.
      destruct (args_debug || DEBUG); cbv [bind print ret];
        intros [= <-]; reflexivity. }
    rewrite (Hrest (fun _ =>
               records <- get_iodp_records fuel (args_debug || DEBUG) ;;
               match records with
               | [] => print OutNoRecords
               | _ :: _ =>
                   save_metadata records ;;
                   print (OutStarting (length records)
                            (args_debug || DEBUG)) ;;
                   download_all records 1 (length records)
                     (args_debug || DEBUG) ;;
                   print OutComplete
               end)).
    unfold bind at 1.
    destruct (get_iodp_records fuel (args_debug || DEBUG) w1)
      as [o w2] eqn:Henum.
    destruct (get_iodp_records_frame _ _ _ _ _ Henum) as [_ [k Hk] ].
    rewrite Hreq1, Hw0 in Hk.
    assert (Hafter : forall (m : M unit),
              fetching m ->
              exists k urls,
                w_requests (snd (m w2))
                = w_requests w
                  ++ pages (if args_debug || DEBUG then 2 else 50) 1 k
                  ++ map GetFile urls).
    { intros m Hm. destruct (Hm w2) as [urls Hurls].
      exists k, urls. rewrite Hurls, Hk, <- app_assoc. reflexivity. }
    destruct o as [records | e | c | ];
      try (exists k, []; cbn [snd map]; rewrite app_nil_r; exact Hk).
    apply Hafter. destruct records as [ | record rest].
    - apply fetching_print.
    - fetch; first [ apply fetching_save_metadata
                   | apply fetching_download_all ]. }
  destruct key as [ [ | c key] | ].
  - cbv [bind print sys_exit with_fs]. cbn [snd w_requests]. apply Hnone.
  - apply Hmain. reflexivity.
  - cbv [bind print sys_exit with_fs]. cbn [snd w_requests]. apply Hnone.
Qed.

End RequestOrder.

(** ** What is caught and what is not *)

Section Caught.
Context `{RT : runtime} `{NET : remote}.





End Caught.

